(** * tty0tty: a null-modem emulator, verified against its specification

    Shallow embedding of [module/tty0tty.c] (the tty driver that couples the
    virtual serial ports [tnt0]/[tnt1], [tnt2]/[tnt3], ...) and proofs about
    its pairing rule, its open/close life cycle, the MCR->MSR propagation of
    [tiocmset], the byte relay of [write] and the status-change wait.

    Modelling conventions.
    - [tty0tty_table] is a C array of [2 * pairs] pointers: a list of
      options, [None] being the NULL pointer.  An access outside the array
      is undefined in C; it is the outcome [Fault] here.
    - A pointer to a [struct tty0tty_serial] is the slot of [tty0tty_table]
      that holds the record (records are allocated in [tty0tty_open], stored
      in their slot at once and freed only by the module's exit).  NULL is
      [None].  Field assignments through a pointer are in-place updates of
      that slot, so two pointers to one record alias as they do in C.
    - A pointer to a [struct tty_struct] is represented by the [index] of
      the tty it points to; the driver reads through it that index and the
      tty's port, which [tty0tty_open] sets to [tport[index]].
    - C [int] and [unsigned int] values are integers of [Z]; [|], [&] and
      [~] are [Z.lor], [Z.land] and [Z.lnot], which agree with the machine
      operations on two's complement words; [++] and [--] on an [int] wrap
      around at 32 bits (the kernel is built with -fno-strict-overflow).
    - A dereference of NULL is the outcome [Fault].
    - Each entry point is modelled as it runs alone: the semaphore of a
      record, taken and released inside one call, has no effect then. *)

From Stdlib Require Import ZArith Lia Bool.
From Stdlib.Strings Require Import Byte.
From stdpp Require Import base option list.

Local Open Scope Z_scope.

(** ** Constants *)

(** The fake UART registers of the driver (lines 41-48 of the source). *)
Definition MCR_DTR : Z := 0x01.
Definition MCR_RTS : Z := 0x02.
Definition MCR_LOOP : Z := 0x04.
Definition MSR_CTS : Z := 0x10.
Definition MSR_CD : Z := 0x20.
Definition MSR_DSR : Z := 0x40.
Definition MSR_RI : Z := 0x80.

(** The modem-line flags and ioctl numbers come from the kernel's headers,
    which are not part of the driver: they are parameters of the
    development. *)
Class Termios := {
  TIOCM_DTR : Z;
  TIOCM_RTS : Z;
  TIOCM_LOOP : Z;
  TIOCM_CTS : Z;
  TIOCM_CAR : Z;
  TIOCM_RI : Z;
  TIOCM_DSR : Z;
  TIOCM_RNG : Z;
  TIOCM_CD : Z;
  TIOCGSERIAL : Z;
  TIOCMIWAIT : Z;
  TIOCGICOUNT : Z
}.

(** The values of include/uapi/asm-generic/termios.h and ioctls.h, used
    wherever a concrete run of the driver is evaluated. *)
Definition asm_generic : Termios := {|
  TIOCM_DTR := 0x002;
  TIOCM_RTS := 0x004;
  TIOCM_LOOP := 0x8000;
  TIOCM_CTS := 0x020;
  TIOCM_CAR := 0x040;
  TIOCM_RI := 0x080;
  TIOCM_DSR := 0x100;
  TIOCM_RNG := 0x080;
  TIOCM_CD := 0x040;
  TIOCGSERIAL := 0x541E;
  TIOCMIWAIT := 0x545C;
  TIOCGICOUNT := 0x545D
|}.

(** ** Results *)

Inductive errno := ENOMEM | EINVAL | ENODEV | EIO | EFAULT | ERESTARTSYS | ENOIOCTLCMD.

(** What a driver entry point hands back: [return v] or [return -e]. *)
Inductive retval :=
  | Ret (v : Z)
  | Neg (e : errno).

(** An operation either runs to its [return] or faults on the way (NULL
    dereference, access outside [tty0tty_table]). *)
Inductive outcome (A : Type) :=
  | Done (a : A)
  | Fault.
Arguments Done {A} a.
Arguments Fault {A}.

#[export] Instance outcome_ret : MRet outcome := fun A a => Done a.
#[export] Instance outcome_bind : MBind outcome := fun A B f m =>
  match m with
  | Done a => f a
  | Fault => Fault
  end.

(** C truth value of an integer expression. *)
Definition truthy (z : Z) : bool := negb (z =? 0).

(** 32-bit two's complement wrap-around of an [int]. *)
Definition wrap_int (z : Z) : Z := (z + 2 ^ 31) mod 2 ^ 32 - 2 ^ 31.

Definition int_range (z : Z) : Prop := - 2 ^ 31 <= z < 2 ^ 31.

(** ** Data model *)

(** [struct async_icount], the interrupt counters. *)
Record async_icount := {
  cts : Z; dsr : Z; rng : Z; dcd : Z;
  rx : Z; tx : Z;
  frame : Z; overrun : Z; parity : Z; brk : Z; buf_overrun : Z
}.

(** [struct tty0tty_serial].  The [sem], [serial] and [wait] members carry
    no data that the driver ever writes. *)
Record tty0tty_serial := {
  tty : option Z;
  open_count : Z;
  msr : Z;
  mcr : Z;
  icount : async_icount
}.

(** The part of [struct tty_struct] that the driver uses. *)
Record tty_struct := {
  index : Z;
  driver_data : option Z
}.

(** The calls by which the driver acts on another port's tty.  The source
    makes no other call that reaches a port or a task from outside: in
    particular the wait queue of a record is never woken (the driver has no
    [wake_up] call). *)
Inductive kcall :=
  | tty_insert_flip_string (port : Z) (chars : list byte) (size : Z)
  | tty_flip_buffer_push (port : Z).

(** The driver's global state and the trace of the calls it made. *)
Record kernel := {
  tty0tty_table : list (option tty0tty_serial);
  calls : list kcall
}.

(** [kzalloc]: every member zero. *)
Definition icount_zero : async_icount :=
  {| cts := 0; dsr := 0; rng := 0; dcd := 0; rx := 0; tx := 0;
     frame := 0; overrun := 0; parity := 0; brk := 0; buf_overrun := 0 |}.

Definition kzalloc : tty0tty_serial :=
  {| tty := None; open_count := 0; msr := 0; mcr := 0; icount := icount_zero |}.

(** Field assignments. *)
Definition set_tty (v : option Z) (r : tty0tty_serial) : tty0tty_serial :=
  {| tty := v; open_count := open_count r; msr := msr r; mcr := mcr r; icount := icount r |}.
Definition set_open_count (v : Z) (r : tty0tty_serial) : tty0tty_serial :=
  {| tty := tty r; open_count := v; msr := msr r; mcr := mcr r; icount := icount r |}.
Definition set_msr (v : Z) (r : tty0tty_serial) : tty0tty_serial :=
  {| tty := tty r; open_count := open_count r; msr := v; mcr := mcr r; icount := icount r |}.
Definition set_mcr (v : Z) (r : tty0tty_serial) : tty0tty_serial :=
  {| tty := tty r; open_count := open_count r; msr := msr r; mcr := v; icount := icount r |}.

(** ** Memory access *)

(** [tbl[i]]: [None] outside the array, [Some None] for a NULL entry. *)
Definition slot (tbl : list (option tty0tty_serial)) (i : Z)
  : option (option tty0tty_serial) :=
  if i <? 0 then None else tbl !! Z.to_nat i.

(** [*p] for a record pointer [p]. *)
Definition deref (tbl : list (option tty0tty_serial)) (p : option Z)
  : outcome tty0tty_serial :=
  match p with
  | None => Fault
  | Some i =>
      match slot tbl i with
      | Some (Some r) => Done r
      | _ => Fault
      end
  end.

(** [tbl[i] = v]. *)
Definition poke (i : Z) (v : option tty0tty_serial)
    (tbl : list (option tty0tty_serial)) : list (option tty0tty_serial) :=
  if i <? 0 then tbl else <[Z.to_nat i := v]> tbl.

(** [p->field = v], as the field update [f] on the record in slot [p]. *)
Definition assign (p : Z) (f : tty0tty_serial -> tty0tty_serial)
    (tbl : list (option tty0tty_serial)) : list (option tty0tty_serial) :=
  if p <? 0 then tbl else alter (fmap f) (Z.to_nat p) tbl.

(** ** The pairing rule *)

(** The index computed at the head of [get_counterpart]. *)
Definition counterpart_idx (idx : Z) : Z :=
  let counterpart_idx := idx + 1 in
  if truthy (Z.rem idx 2) then idx - 1 else counterpart_idx.

(** [get_counterpart]: the record of the sibling port if it exists and is
    open, else NULL. *)
Definition get_counterpart (tbl : list (option tty0tty_serial)) (tts : option Z)
  : outcome (option Z) :=
  r ← deref tbl tts;
  match tty r with
  | None => Fault
  | Some idx =>
      match slot tbl (counterpart_idx idx) with
      | None => Fault
      | Some None => Done None
      | Some (Some c) =>
          if open_count c >? 0 then Done (Some (counterpart_idx idx)) else Done None
      end
  end.

(** ** Life cycle *)

Definition with_table (k : kernel) (tbl : list (option tty0tty_serial)) : kernel :=
  {| tty0tty_table := tbl; calls := calls k |}.

(** [pairs = clamp_val(pairs, 1, 128)] and the table of [tty0tty_init]. *)
Definition clamp_val (v lo hi : Z) : Z := Z.min (Z.max v lo) hi.

Definition tty0tty_init (pairs : Z) : kernel :=
  {| tty0tty_table := replicate (Z.to_nat (2 * clamp_val pairs 1 128)) None;
     calls := [] |}.

(** The null-modem connection computed by [tty0tty_open] from the
    counterpart's MCR (lines 119-127). *)
Definition open_msr (mcr : Z) : Z :=
  let msr0 := 0 in
  let msr1 := if truthy (Z.land mcr MCR_RTS) then Z.lor msr0 MSR_CTS else msr0 in
  if truthy (Z.land mcr MCR_DTR) then Z.lor (Z.lor msr1 MSR_DSR) MSR_CD else msr1.

(** [tty0tty_open].  [kzalloc_ok] tells whether the allocation of a first
    open succeeds.  The result carries the tty as the call leaves it.  The
    call also ties the tty to [tport[index]], which is why a tty's port is
    named by the tty's index in [kcall]. *)
Definition tty0tty_open (k : kernel) (t : tty_struct) (kzalloc_ok : bool)
  : outcome retval * tty_struct * kernel :=
  let t0 := {| index := index t; driver_data := None |} in
  match slot (tty0tty_table k) (index t) with
  | None => (Fault, t0, k)
  | Some entry =>
      let created :=
        match entry with
        | Some _ => Some (tty0tty_table k)
        | None =>
            if kzalloc_ok
            then Some (poke (index t) (Some (set_open_count 0 kzalloc)) (tty0tty_table k))
            else None
        end in
      match created with
      | None => (Done (Neg ENOMEM), t0, k)
      | Some tbl1 =>
          let tty0tty := Some (index t) in
          let reads :=
            tts ← get_counterpart tbl1 tty0tty;
            match tts with
            | Some _ => c ← deref tbl1 tts; mret (mcr c)
            | None => mret 0
            end in
          match reads with
          | Fault => (Fault, t0, with_table k tbl1)
          | Done mcr0 =>
              let tbl2 := assign (index t) (set_msr (open_msr mcr0)) tbl1 in
              let tbl3 := assign (index t) (set_mcr 0) tbl2 in
              let tbl4 := assign (index t) (set_tty (Some (index t))) tbl3 in
              let tbl5 :=
                assign (index t)
                  (fun r => set_open_count (wrap_int (open_count r + 1)) r) tbl4 in
              (Done (Ret 0), {| index := index t; driver_data := tty0tty |},
               with_table k tbl5)
          end
      end
  end.

(** [do_close]: the counterpart's MSR is reset before the open count is
    looked at. *)
Definition do_close (k : kernel) (tty0tty : option Z) : outcome unit * kernel :=
  match get_counterpart (tty0tty_table k) tty0tty with
  | Fault => (Fault, k)
  | Done tts =>
      let msr0 := 0 in
      let tbl1 :=
        match tts with
        | Some q => assign q (set_msr msr0) (tty0tty_table k)
        | None => tty0tty_table k
        end in
      match deref tbl1 tty0tty, tty0tty with
      | Done r, Some p =>
          if negb (truthy (open_count r))
          then (Done (), with_table k tbl1)
          else
            (Done (),
             with_table k (assign p (set_open_count (wrap_int (open_count r - 1))) tbl1))
      | _, _ => (Fault, with_table k tbl1)
      end
  end.

Definition tty0tty_close (k : kernel) (t : tty_struct) : outcome unit * kernel :=
  match driver_data t with
  | Some _ => do_close k (driver_data t)
  | None => (Done (), k)
  end.

(** ** Byte relay *)

Definition tty0tty_write (k : kernel) (t : tty_struct) (buffer : list byte) (count : Z)
  : outcome retval * kernel :=
  let retval0 := Neg EINVAL in
  match driver_data t with
  | None => (Done (Neg ENODEV), k)
  | Some _ =>
      let tty0tty := driver_data t in
      let reads :=
        r ← deref (tty0tty_table k) tty0tty;
        if negb (truthy (open_count r)) then mret None
        else
          tts ← get_counterpart (tty0tty_table k) tty0tty;
          match tts with
          | Some _ => c ← deref (tty0tty_table k) tts; mret (tty c)
          | None => mret None
          end in
      match reads with
      | Fault => (Fault, k)
      | Done None => (Done retval0, k)
      | Done (Some ttyx) =>
          (Done (Ret count),
           {| tty0tty_table := tty0tty_table k;
              calls := calls k ++ [tty_insert_flip_string ttyx buffer count;
                                   tty_flip_buffer_push ttyx] |})
      end
  end.

Definition tty0tty_write_room (k : kernel) (t : tty_struct) : outcome retval :=
  let room0 := Neg EINVAL in
  match driver_data t with
  | None => Done (Neg ENODEV)
  | Some _ =>
      r ← deref (tty0tty_table k) (driver_data t);
      if negb (truthy (open_count r)) then mret room0 else mret (Ret 255)
  end.

(** [tty0tty_set_termios] only prints the settings. *)
Definition tty0tty_set_termios (k : kernel) (t : tty_struct) : kernel := k.

(** ** Modem lines *)

Section Control.
Context `{Termios}.

(** The bit vector assembled by [tty0tty_tiocmget] (lines 339-345). *)
Definition tiocmget_result (mcr0 msr0 : Z) : Z :=
  let pick (c : Z) (flag : Z) : Z := if truthy c then flag else 0 in
  Z.lor (Z.lor (Z.lor (Z.lor (Z.lor (Z.lor
    (pick (Z.land mcr0 MCR_DTR) TIOCM_DTR)
    (pick (Z.land mcr0 MCR_RTS) TIOCM_RTS))
    (pick (Z.land mcr0 MCR_LOOP) TIOCM_LOOP))
    (pick (Z.land msr0 MSR_CTS) TIOCM_CTS))
    (pick (Z.land msr0 MSR_CD) TIOCM_CAR))
    (pick (Z.land msr0 MSR_RI) TIOCM_RI))
    (pick (Z.land msr0 MSR_DSR) TIOCM_DSR).

Definition tty0tty_tiocmget (k : kernel) (t : tty_struct) : outcome retval :=
  tty0tty ← deref (tty0tty_table k) (driver_data t);
  let msr0 := msr tty0tty in
  let mcr0 := mcr tty0tty in
  mret (Ret (tiocmget_result mcr0 msr0)).

(** The four [if] blocks of [tty0tty_tiocmset] (lines 365-385), on the local
    copy of the caller's MCR ... *)
Definition tiocmset_mcr (set clear mcr0 : Z) : Z :=
  let mcr1 := if truthy (Z.land set TIOCM_RTS) then Z.lor mcr0 MCR_RTS else mcr0 in
  let mcr2 := if truthy (Z.land set TIOCM_DTR) then Z.lor mcr1 MCR_DTR else mcr1 in
  let mcr3 := if truthy (Z.land clear TIOCM_RTS) then Z.land mcr2 (Z.lnot MCR_RTS) else mcr2 in
  if truthy (Z.land clear TIOCM_DTR) then Z.land mcr3 (Z.lnot MCR_DTR) else mcr3.

(** ... and on the local copy of the counterpart's MSR. *)
Definition tiocmset_msr (set clear msr0 : Z) : Z :=
  let msr1 := if truthy (Z.land set TIOCM_RTS) then Z.lor msr0 MSR_CTS else msr0 in
  let msr2 :=
    if truthy (Z.land set TIOCM_DTR) then Z.lor (Z.lor msr1 MSR_DSR) MSR_CD else msr1 in
  let msr3 := if truthy (Z.land clear TIOCM_RTS) then Z.land msr2 (Z.lnot MSR_CTS) else msr2 in
  if truthy (Z.land clear TIOCM_DTR)
  then Z.land (Z.land msr3 (Z.lnot MSR_DSR)) (Z.lnot MSR_CD) else msr3.

Definition tty0tty_tiocmset (k : kernel) (t : tty_struct) (set clear : Z)
  : outcome retval * kernel :=
  let tty0tty := driver_data t in
  let reads :=
    r ← deref (tty0tty_table k) tty0tty;
    tts ← get_counterpart (tty0tty_table k) tty0tty;
    msr0 ← match tts with
           | Some _ => c ← deref (tty0tty_table k) tts; mret (msr c)
           | None => mret 0
           end;
    mret (mcr r, tts, msr0) in
  match reads, tty0tty with
  | Done (mcr0, tts, msr0), Some p =>
      let tbl1 := assign p (set_mcr (tiocmset_mcr set clear mcr0)) (tty0tty_table k) in
      let tbl2 :=
        match tts with
        | Some q => assign q (set_msr (tiocmset_msr set clear msr0)) tbl1
        | None => tbl1
        end in
      (Done (Ret 0), with_table k tbl2)
  | _, _ => (Fault, k)
  end.

End Control.

(** ** ioctl *)

(** One return of the sleeping task from [schedule()]: whether a signal is
    pending for it, and the driver's state at that moment. *)
Record wakeup := {
  signal_pending : bool;
  now : kernel
}.

Section Ioctl.
Context `{Termios}.

(** [copy_to_user_ok] tells whether the copy to the caller's buffer
    succeeds. *)
Definition tty0tty_ioctl_tiocgserial (k : kernel) (t : tty_struct) (cmd arg : Z)
    (copy_to_user_ok : bool) : outcome retval :=
  if cmd =? TIOCGSERIAL then
    if negb (truthy arg) then Done (Neg EFAULT)
    else
      _ ← deref (tty0tty_table k) (driver_data t);
      if copy_to_user_ok then mret (Ret 0) else mret (Neg EFAULT)
  else Done (Neg ENOIOCTLCMD).

(** The body of [while (1)] in [tty0tty_ioctl_tiocmiwait], once per
    wake-up.  [None]: the task is still asleep when the wake-ups that are
    given have been used. *)
Fixpoint tiocmiwait_loop (tty0tty : option Z) (arg : Z) (cprev : async_icount)
    (wakeups : list wakeup) : option (outcome retval) :=
  match wakeups with
  | [] => None
  | w :: rest =>
      if signal_pending w then Some (Done (Neg ERESTARTSYS))
      else
        match deref (tty0tty_table (now w)) tty0tty with
        | Fault => Some Fault
        | Done r =>
            let cnow := icount r in
            if (rng cnow =? rng cprev) && (dsr cnow =? dsr cprev) &&
               (dcd cnow =? dcd cprev) && (cts cnow =? cts cprev)
            then Some (Done (Neg EIO))
            else if (truthy (Z.land arg TIOCM_RNG) && negb (rng cnow =? rng cprev)) ||
                    (truthy (Z.land arg TIOCM_DSR) && negb (dsr cnow =? dsr cprev)) ||
                    (truthy (Z.land arg TIOCM_CD) && negb (dcd cnow =? dcd cprev)) ||
                    (truthy (Z.land arg TIOCM_CTS) && negb (cts cnow =? cts cprev))
            then Some (Done (Ret 0))
            else tiocmiwait_loop tty0tty arg cnow rest
        end
  end.

Definition tty0tty_ioctl_tiocmiwait (k : kernel) (t : tty_struct) (cmd arg : Z)
    (wakeups : list wakeup) : option (outcome retval) :=
  if cmd =? TIOCMIWAIT then
    match deref (tty0tty_table k) (driver_data t) with
    | Fault => Some Fault
    | Done r => tiocmiwait_loop (driver_data t) arg (icount r) wakeups
    end
  else Some (Done (Neg ENOIOCTLCMD)).

Definition tty0tty_ioctl_tiocgicount (k : kernel) (t : tty_struct) (cmd arg : Z)
    (copy_to_user_ok : bool) : outcome retval :=
  if cmd =? TIOCGICOUNT then
    _ ← deref (tty0tty_table k) (driver_data t);
    if copy_to_user_ok then mret (Ret 0) else mret (Neg EFAULT)
  else Done (Neg ENOIOCTLCMD).

Definition tty0tty_ioctl (k : kernel) (t : tty_struct) (cmd arg : Z)
    (copy_to_user_ok : bool) (wakeups : list wakeup) : option (outcome retval) :=
  if cmd =? TIOCGSERIAL then Some (tty0tty_ioctl_tiocgserial k t cmd arg copy_to_user_ok)
  else if cmd =? TIOCMIWAIT then tty0tty_ioctl_tiocmiwait k t cmd arg wakeups
  else if cmd =? TIOCGICOUNT then Some (tty0tty_ioctl_tiocgicount k t cmd arg copy_to_user_ok)
  else Some (Done (Neg ENOIOCTLCMD)).

(** ** The driver as a transition system *)

(** The entry points of [serial_ops], with the arguments the tty layer
    passes.  No assumption is made on the tty handed in. *)
Inductive request :=
  | Open (t : tty_struct) (kzalloc_ok : bool)
  | Close (t : tty_struct)
  | Write (t : tty_struct) (buffer : list byte) (count : Z)
  | Write_room (t : tty_struct)
  | Set_termios (t : tty_struct)
  | Tiocmget (t : tty_struct)
  | Tiocmset (t : tty_struct) (set clear : Z)
  | Ioctl (t : tty_struct) (cmd arg : Z) (copy_to_user_ok : bool) (wakeups : list wakeup).

(** The state a request leaves behind, also when it faults half-way. *)
Definition serve (k : kernel) (q : request) : kernel :=
  match q with
  | Open t kzalloc_ok => snd (tty0tty_open k t kzalloc_ok)
  | Close t => snd (tty0tty_close k t)
  | Write t buffer count => snd (tty0tty_write k t buffer count)
  | Write_room _ => k
  | Set_termios t => tty0tty_set_termios k t
  | Tiocmget _ => k
  | Tiocmset t set clear => snd (tty0tty_tiocmset k t set clear)
  | Ioctl _ _ _ _ _ => k
  end.

Inductive reachable : kernel -> Prop :=
  | reachable_init pairs : reachable (tty0tty_init pairs)
  | reachable_serve k q : reachable k -> reachable (serve k q).

End Ioctl.

(** ** Observations on a state *)

(** The record of port [i], if the port has one. *)
Definition port (tbl : list (option tty0tty_serial)) (i : Z) : option tty0tty_serial :=
  match slot tbl i with
  | Some (Some r) => Some r
  | _ => None
  end.

(** The interrupt counters port [i] reports: those of its record, and the
    zeros its record will be allocated with while it has none. *)
Definition counters (k : kernel) (i : Z) : async_icount :=
  match port (tty0tty_table k) i with
  | Some r => icount r
  | None => icount_zero
  end.

(** The status register port [i] reads, all-clear while it has no record. *)
Definition status (k : kernel) (i : Z) : Z :=
  match port (tty0tty_table k) i with
  | Some r => msr r
  | None => 0
  end.

(** The LOOP bit of port [i]'s control register. *)
Definition loop_line (k : kernel) (i : Z) : Z :=
  match port (tty0tty_table k) i with
  | Some r => Z.land (mcr r) MCR_LOOP
  | None => 0
  end.

(** The tty through which a holder of port [p] talks to the driver after
    a completed [tty0tty_open]. *)
Definition handle (p : Z) : tty_struct := {| index := p; driver_data := Some p |}.

(** Port [p] has the record [r], attached to its tty as [tty0tty_open]
    leaves it, and its sibling's slot lies inside the table. *)
Definition attached (k : kernel) (p : Z) (r : tty0tty_serial) : Prop :=
  slot (tty0tty_table k) p = Some (Some r) /\ tty r = Some p /\
  is_Some (slot (tty0tty_table k) (counterpart_idx p)).

(** Port [q] is open with record [c]. *)
Definition is_open (k : kernel) (q : Z) (c : tty0tty_serial) : Prop :=
  slot (tty0tty_table k) q = Some (Some c) /\ open_count c > 0.

(** Port [q] was never created, or is not open. *)
Definition not_listening (k : kernel) (q : Z) : Prop :=
  slot (tty0tty_table k) q = Some None \/
  exists c, slot (tty0tty_table k) q = Some (Some c) /\ open_count c = 0.

(** The four status lines a waiter watches. *)
Inductive line := RNG | DSR | DCD | CTS.

Definition counter (l : line) (c : async_icount) : Z :=
  match l with
  | RNG => rng c
  | DSR => dsr c
  | DCD => dcd c
  | CTS => cts c
  end.

Definition msr_bit (l : line) : Z :=
  match l with
  | RNG => MSR_RI
  | DSR => MSR_DSR
  | DCD => MSR_CD
  | CTS => MSR_CTS
  end.

(** Line [l] is asserted in the register value [m]. *)
Definition asserted (m : Z) (bit : Z) : bool := truthy (Z.land m bit).

(** ** States used in the examples *)

(** Port 0 held open once, port 1 never created. *)
Definition lonely : kernel :=
  {| tty0tty_table :=
       [Some {| tty := Some 0; open_count := 1; msr := 0; mcr := 0; icount := icount_zero |};
        None];
     calls := [] |}.

(** Port 0 closed again after use, port 1 still open and seeing CTS, DSR
    and CD. *)
Definition half_closed : kernel :=
  {| tty0tty_table :=
       [Some {| tty := Some 0; open_count := 0; msr := 0; mcr := 0; icount := icount_zero |};
        Some {| tty := Some 1; open_count := 1; msr := 0x70; mcr := 0; icount := icount_zero |}];
     calls := [] |}.

(** Both ports of the first pair held open once; port 1 sees CTS, DSR and
    CD, which port 0 drives with RTS and DTR. *)
Definition both_open : kernel :=
  {| tty0tty_table :=
       [Some {| tty := Some 0; open_count := 1; msr := 0; mcr := 0x03; icount := icount_zero |};
        Some {| tty := Some 1; open_count := 1; msr := 0x70; mcr := 0; icount := icount_zero |}];
     calls := [] |}.

(** The record of port [i] held open once, every line clear. *)
Definition idle_port (i : Z) : tty0tty_serial :=
  {| tty := Some i; open_count := 1; msr := 0; mcr := 0; icount := icount_zero |}.

(** Both ports of the first pair held open once, every line clear. *)
Definition both_idle : kernel :=
  {| tty0tty_table := [Some (idle_port 0); Some (idle_port 1)]; calls := [] |}.

(** Port 1 of an open pair after one change of CTS had been counted. *)
Definition cts_counted : kernel :=
  {| tty0tty_table :=
       [Some (idle_port 0);
        Some {| tty := Some 1; open_count := 1; msr := 0x10; mcr := 0;
                icount := {| cts := 1; dsr := 0; rng := 0; dcd := 0; rx := 0; tx := 0;
                             frame := 0; overrun := 0; parity := 0; brk := 0;
                             buf_overrun := 0 |} |}];
     calls := [] |}.

(** The state after the first request ever served: an open of port 0. *)
Definition first_request : kernel :=
  serve (H := asm_generic) (tty0tty_init 1) (Open {| index := 0; driver_data := None |} true).

(** ** The statements of the specification, and their vocabulary *)

(** The specification's reading of a write without a listener: on an open
    port whose counterpart does not listen the call succeeds with 0 bytes
    accepted and nothing else happens. *)
Definition write_without_listener_spec (k : kernel) (p : Z) (buffer : list byte)
    (count : Z) : Prop :=
  forall r, attached k p r -> open_count r > 0 -> not_listening k (counterpart_idx p) ->
  tty0tty_write k (handle p) buffer count = (Done (Ret 0), k).

(** The specification's reading of a close on a port that is not open: a
    no-op that changes no state. *)
Definition close_unopened_spec (k : kernel) (p : Z) : Prop :=
  forall r, attached k p r -> open_count r = 0 ->
  snd (tty0tty_close k (handle p)) = k.

Section Statements.
Context `{Termios}.

(** The specification's null-modem transfer law, in its own words: a call
    that asserts a line sets the coupled status bits of the open
    counterpart, a call that clears one clears them, and the counterpart's
    other status bits stay. *)
Definition transfer_law_spec (k : kernel) (p : Z) (set clear : Z) : Prop :=
  forall r c c', attached k p r -> is_open k (counterpart_idx p) c ->
  port (tty0tty_table (snd (tty0tty_tiocmset k (handle p) set clear)))
    (counterpart_idx p) = Some c' ->
  (truthy (Z.land set TIOCM_RTS) = true -> asserted (msr c') MSR_CTS = true) /\
  (truthy (Z.land set TIOCM_DTR) = true ->
     asserted (msr c') MSR_DSR = true /\ asserted (msr c') MSR_CD = true) /\
  (truthy (Z.land clear TIOCM_RTS) = true -> asserted (msr c') MSR_CTS = false) /\
  (truthy (Z.land clear TIOCM_DTR) = true ->
     asserted (msr c') MSR_DSR = false /\ asserted (msr c') MSR_CD = false) /\
  (forall j, Z.testbit MSR_CTS j = false -> Z.testbit MSR_DSR j = false ->
     Z.testbit MSR_CD j = false -> Z.testbit (msr c') j = Z.testbit (msr c) j).

(** The two masks ask for each line at most one thing: neither RTS nor
    DTR is named both in the set mask and in the clear mask. *)
Definition one_way_masks (set clear : Z) : Prop :=
  (truthy (Z.land set TIOCM_RTS) = true -> truthy (Z.land clear TIOCM_RTS) = false) /\
  (truthy (Z.land set TIOCM_DTR) = true -> truthy (Z.land clear TIOCM_DTR) = false).

(** The specification's reading of the counters: a [set_control_lines]
    call through port [p] increments, for each status line of the
    counterpart that it makes change, the counterpart's counter of that line
    by exactly 1, leaves the counters of the other lines alone, and makes no
    counter decrease. *)
Definition counts_transitions_spec (k : kernel) (p : Z) (set clear : Z) : Prop :=
  forall l,
    (asserted (status (snd (tty0tty_tiocmset k (handle p) set clear)) (counterpart_idx p))
       (msr_bit l) <> asserted (status k (counterpart_idx p)) (msr_bit l) ->
     counter l (counters (snd (tty0tty_tiocmset k (handle p) set clear)) (counterpart_idx p))
     = counter l (counters k (counterpart_idx p)) + 1) /\
    (asserted (status (snd (tty0tty_tiocmset k (handle p) set clear)) (counterpart_idx p))
       (msr_bit l) = asserted (status k (counterpart_idx p)) (msr_bit l) ->
     counter l (counters (snd (tty0tty_tiocmset k (handle p) set clear)) (counterpart_idx p))
     = counter l (counters k (counterpart_idx p))) /\
    counter l (counters k (counterpart_idx p)) <=
    counter l (counters (snd (tty0tty_tiocmset k (handle p) set clear)) (counterpart_idx p)).

(** The flag by which a caller of TIOCMIWAIT names a line. *)
Definition TIOCM_of (l : line) : Z :=
  match l with
  | RNG => TIOCM_RNG
  | DSR => TIOCM_DSR
  | DCD => TIOCM_CD
  | CTS => TIOCM_CTS
  end.

(** Line [l] is in the caller's mask. *)
Definition requested (arg : Z) (l : line) : Prop := Z.land arg (TIOCM_of l) <> 0.

End Statements.

(** The counter of line [l] differs from the snapshot. *)
Definition changed (cprev cnow : async_icount) (l : line) : Prop :=
  counter l cnow <> counter l cprev.

(** Every record is as [kzalloc] made it, and nothing was delivered. *)
Definition pristine (k : kernel) : Prop :=
  calls k = [] /\ forall i r, port (tty0tty_table k) i = Some r -> r = kzalloc.

(** ** Module exit *)




(** ** Vocabulary of the further properties *)

(** One more open, and one more close, by a holder of port [p]. *)
Definition open_at (p : Z) (k : kernel) : kernel := snd (tty0tty_open k (handle p) true).
Definition close_at (p : Z) (k : kernel) : kernel := snd (tty0tty_close k (handle p)).

(** The MCR that an open of port [p] reads from the counterpart: that of
    an open counterpart, else 0. *)
Definition counterpart_mcr (tbl : list (option tty0tty_serial)) (p : Z) : Z :=
  match port tbl (counterpart_idx p) with
  | Some c => if open_count c >? 0 then mcr c else 0
  | None => 0
  end.

(** The table after [do_close] on port [p] has reset the status lines of an
    open counterpart. *)
Definition drop_counterpart_lines (tbl : list (option tty0tty_serial)) (p : Z)
  : list (option tty0tty_serial) :=
  match port tbl (counterpart_idx p) with
  | Some c => if open_count c >? 0 then assign (counterpart_idx p) (set_msr 0) tbl else tbl
  | None => tbl
  end.

(** Every record of the table satisfies [P]. *)
Definition all_ports (P : tty0tty_serial -> Prop) (tbl : list (option tty0tty_serial))
  : Prop :=
  forall i r, port tbl i = Some r -> P r.


(** A record whose registers hold nothing but the lines the driver couples:
    CTS, CD and DSR in the MSR, DTR and RTS in the MCR. *)
Definition tidy_port (r : tty0tty_serial) : Prop :=
  (forall j, Z.testbit (msr r) j = true -> j = 4 \/ j = 5 \/ j = 6) /\
  (forall j, Z.testbit (mcr r) j = true -> j = 0 \/ j = 1).

Definition tidy (k : kernel) : Prop :=
  forall i r, port (tty0tty_table k) i = Some r -> tidy_port r.



Section Flags.
Context `{Termios}.

(** The flags of which [tty0tty_tiocmget] builds its result. *)
Definition tiocm_flags : list Z :=
  [TIOCM_DTR; TIOCM_RTS; TIOCM_LOOP; TIOCM_CTS; TIOCM_CAR; TIOCM_RI; TIOCM_DSR].

(** They are non-zero and no two of them share a bit, as in every kernel. *)
Definition distinct_flags : Prop :=
  Forall (fun f => f <> 0) tiocm_flags /\
  ForallOrdPairs (fun f g => Z.land f g = 0) tiocm_flags.

(** The mask names none of the four lines a TIOCMIWAIT can watch. *)
Definition empty_mask (arg : Z) : Prop :=
  Z.land arg TIOCM_RNG = 0 /\ Z.land arg TIOCM_DSR = 0 /\
  Z.land arg TIOCM_CD = 0 /\ Z.land arg TIOCM_CTS = 0.

End Flags.

(** ** Basic facts about the table *)

Lemma slot_assign p f tbl i :
  slot (assign p f tbl) i =
  if decide (i = p) then fmap (M := option) f <$> slot tbl i else slot tbl i.
Proof.
  unfold slot, assign.
  destruct (Z.ltb_spec i 0), (Z.ltb_spec p 0); case_decide; subst; try done; try lia.
  - by rewrite list_lookup_alter_eq.
  - rewrite list_lookup_alter_ne; [done | lia].
Qed.

Lemma slot_poke p v tbl i :
  slot (poke p v tbl) i = if decide (i = p) then (fun _ => v) <$> slot tbl i else slot tbl i.
Proof.
  unfold slot, poke.
  destruct (Z.ltb_spec i 0), (Z.ltb_spec p 0); case_decide; subst; try done; try lia.
  - destruct (tbl !! Z.to_nat p) eqn:E; simpl.
    + apply list_lookup_insert_eq. by eapply lookup_lt_Some.
    + rewrite list_insert_ge; [done |]. by apply lookup_ge_None.
  - rewrite list_lookup_insert_ne; [done | lia].
Qed.

Lemma port_assign p f tbl i :
  port (assign p f tbl) i = if decide (i = p) then f <$> port tbl i else port tbl i.
Proof.
  unfold port. rewrite slot_assign. case_decide; [| done].
  by destruct (slot tbl i) as [[?|]|].
Qed.

Lemma deref_Some tbl p r : slot tbl p = Some (Some r) -> deref tbl (Some p) = Done r.
Proof. unfold deref. by intros ->. Qed.

(** ** The pairing rule *)

Lemma counterpart_idx_even idx : Z.even idx = true -> counterpart_idx idx = idx + 1.
Proof.
  intros He. unfold counterpart_idx, truthy.
  rewrite Zeven.Zeven_bool_iff in He. apply Zeven.Zeven_div2 in He.
  replace (Z.rem idx 2) with 0; [done |].
  symmetry. apply Z.rem_divide; [lia |]. exists (Z.div2 idx). lia.
Qed.

Lemma counterpart_idx_odd idx : Z.odd idx = true -> counterpart_idx idx = idx - 1.
Proof.
  intros Ho. unfold counterpart_idx, truthy.
  destruct (Z.eqb_spec (Z.rem idx 2) 0) as [E|]; [| done].
  apply Z.rem_divide in E; [| lia]. destruct E as [q ->].
  rewrite Z.odd_mul in Ho. simpl in Ho. by rewrite andb_false_r in Ho.
Qed.

Lemma counterpart_idx_neq idx : counterpart_idx idx <> idx.
Proof. unfold counterpart_idx. destruct (truthy _); lia. Qed.

Lemma counterpart_idx_involutive idx : counterpart_idx (counterpart_idx idx) = idx.
Proof.
  destruct (Z.even idx) eqn:He.
  - rewrite (counterpart_idx_even idx He).
    rewrite counterpart_idx_odd; [lia |].
    by rewrite Z.odd_add, <- Z.negb_even, He.
  - assert (Ho : Z.odd idx = true) by by rewrite <- Z.negb_even, He.
    rewrite (counterpart_idx_odd idx Ho).
    rewrite counterpart_idx_even; [lia |].
    by rewrite Z.even_sub, He.
Qed.

(** C7.  On every valid index [i] of a table of [2 * pairs] ports, the
    counterpart index that [get_counterpart] computes is [i + 1] when [i] is
    even and [i - 1] when [i] is odd; it is again a valid index, and taking
    the counterpart twice gives [i] back. *)
Theorem counterpart_pairing (pairs i : Z) :
  0 <= i < 2 * pairs ->
  (Z.even i = true -> counterpart_idx i = i + 1) /\
  (Z.odd i = true -> counterpart_idx i = i - 1) /\
  0 <= counterpart_idx i < 2 * pairs /\
  counterpart_idx (counterpart_idx i) = i.
Proof.
  intros Hi. split; [apply counterpart_idx_even |].
  split; [apply counterpart_idx_odd |].
  split; [| apply counterpart_idx_involutive].
  destruct (Z.even i) eqn:He.
  - rewrite (counterpart_idx_even i He).
    rewrite Zeven.Zeven_bool_iff in He. apply Zeven.Zeven_div2 in He. lia.
  - assert (Ho : Z.odd i = true) by by rewrite <- Z.negb_even, He.
    rewrite (counterpart_idx_odd i Ho).
    rewrite Zeven.Zodd_bool_iff in Ho. apply Zeven.Zodd_div2 in Ho. lia.
Qed.

Lemma counterpart_pairing_witness :
  (Z.even 5 = true -> counterpart_idx 5 = 5 + 1) /\
  (Z.odd 5 = true -> counterpart_idx 5 = 5 - 1) /\
  0 <= counterpart_idx 5 < 2 * 4 /\
  counterpart_idx (counterpart_idx 5) = 5.
Proof. apply (counterpart_pairing 4 5). lia. Defined.

(** ** Bits of the shadow registers *)

Lemma asserted_testbit m n : 0 <= n -> asserted m (2 ^ n) = Z.testbit m n.
Proof.
  intros Hn. unfold asserted, truthy.
  destruct (Z.testbit m n) eqn:Hb.
  - replace (Z.land m (2 ^ n)) with (2 ^ n).
    + destruct (Z.eqb_spec (2 ^ n) 0); [lia | done].
    + apply Z.bits_inj'. intros j Hj.
      rewrite Z.land_spec, Z.pow2_bits_eqb by done.
      destruct (Z.eqb_spec n j); subst; by rewrite ?Hb, ?andb_false_r.
  - replace (Z.land m (2 ^ n)) with 0; [done |].
    apply Z.bits_inj'. intros j Hj.
    rewrite Z.land_spec, Z.pow2_bits_eqb, Z.bits_0 by done.
    destruct (Z.eqb_spec n j); subst; by rewrite ?Hb, ?andb_false_r.
Qed.

Lemma testbit_MCR_DTR j : Z.testbit MCR_DTR j = (0 =? j).
Proof. change MCR_DTR with (2 ^ 0). by apply Z.pow2_bits_eqb. Qed.
Lemma testbit_MCR_RTS j : Z.testbit MCR_RTS j = (1 =? j).
Proof. change MCR_RTS with (2 ^ 1). by apply Z.pow2_bits_eqb. Qed.
Lemma testbit_MCR_LOOP j : Z.testbit MCR_LOOP j = (2 =? j).
Proof. change MCR_LOOP with (2 ^ 2). by apply Z.pow2_bits_eqb. Qed.
Lemma testbit_MSR_CTS j : Z.testbit MSR_CTS j = (4 =? j).
Proof. change MSR_CTS with (2 ^ 4). by apply Z.pow2_bits_eqb. Qed.
Lemma testbit_MSR_CD j : Z.testbit MSR_CD j = (5 =? j).
Proof. change MSR_CD with (2 ^ 5). by apply Z.pow2_bits_eqb. Qed.
Lemma testbit_MSR_DSR j : Z.testbit MSR_DSR j = (6 =? j).
Proof. change MSR_DSR with (2 ^ 6). by apply Z.pow2_bits_eqb. Qed.

(** Rewriting a bit of a register expression down to the bits of its
    operands. *)
Ltac register_bits :=
  repeat first
    [ rewrite Z.land_spec | rewrite Z.lor_spec | rewrite Z.lnot_spec by lia
    | rewrite testbit_MCR_DTR | rewrite testbit_MCR_RTS | rewrite testbit_MCR_LOOP
    | rewrite testbit_MSR_CTS | rewrite testbit_MSR_CD | rewrite testbit_MSR_DSR
    | rewrite Z.bits_0 ].

Section Register_bits.
Context `{Termios}.

(** Bit [j] of the MCR that [tty0tty_tiocmset] stores: a clear request
    wins over a set request for the same line, and only RTS (bit 1) and DTR
    (bit 0) can change. *)
Lemma tiocmset_mcr_testbit set clear m j :
  0 <= j ->
  Z.testbit (tiocmset_mcr set clear m) j =
    if j =? 1 then
      if truthy (Z.land clear TIOCM_RTS) then false
      else if truthy (Z.land set TIOCM_RTS) then true else Z.testbit m j
    else if j =? 0 then
      if truthy (Z.land clear TIOCM_DTR) then false
      else if truthy (Z.land set TIOCM_DTR) then true else Z.testbit m j
    else Z.testbit m j.
Proof.
  intros Hj. unfold tiocmset_mcr.
  destruct (truthy (Z.land set TIOCM_RTS)), (truthy (Z.land set TIOCM_DTR)),
    (truthy (Z.land clear TIOCM_RTS)), (truthy (Z.land clear TIOCM_DTR));
    register_bits;
    destruct (Z.eqb_spec j 1), (Z.eqb_spec j 0), (Z.eqb_spec 1 j), (Z.eqb_spec 0 j);
    try lia; simpl; by rewrite ?orb_true_r, ?orb_false_r, ?andb_true_r, ?andb_false_r.
Qed.

(** Bit [j] of the MSR that [tty0tty_tiocmset] stores in the counterpart:
    RTS drives CTS (bit 4), DTR drives CD (bit 5) and DSR (bit 6), and no
    other bit can change. *)
Lemma tiocmset_msr_testbit set clear m j :
  0 <= j ->
  Z.testbit (tiocmset_msr set clear m) j =
    if j =? 4 then
      if truthy (Z.land clear TIOCM_RTS) then false
      else if truthy (Z.land set TIOCM_RTS) then true else Z.testbit m j
    else if (j =? 5) || (j =? 6) then
      if truthy (Z.land clear TIOCM_DTR) then false
      else if truthy (Z.land set TIOCM_DTR) then true else Z.testbit m j
    else Z.testbit m j.
Proof.
  intros Hj. unfold tiocmset_msr.
  destruct (truthy (Z.land set TIOCM_RTS)), (truthy (Z.land set TIOCM_DTR)),
    (truthy (Z.land clear TIOCM_RTS)), (truthy (Z.land clear TIOCM_DTR));
    register_bits;
    destruct (Z.eqb_spec j 4), (Z.eqb_spec j 5), (Z.eqb_spec j 6),
      (Z.eqb_spec 4 j), (Z.eqb_spec 5 j), (Z.eqb_spec 6 j);
    try lia; simpl; by rewrite ?orb_true_r, ?orb_false_r, ?andb_true_r, ?andb_false_r.
Qed.

End Register_bits.

(** ** Resolving the counterpart *)

Lemma get_counterpart_open k p r c :
  attached k p r -> is_open k (counterpart_idx p) c ->
  get_counterpart (tty0tty_table k) (Some p) = Done (Some (counterpart_idx p)).
Proof.
  intros (Hp & Ht & _) (Hc & Ho). unfold get_counterpart.
  rewrite (deref_Some _ _ _ Hp). simpl. rewrite Ht, Hc.
  destruct (Z.gtb_spec (open_count c) 0); [done | lia].
Qed.

Lemma get_counterpart_not_listening k p r :
  attached k p r -> not_listening k (counterpart_idx p) ->
  get_counterpart (tty0tty_table k) (Some p) = Done None.
Proof.
  intros (Hp & Ht & _) Hn. unfold get_counterpart.
  rewrite (deref_Some _ _ _ Hp). simpl. rewrite Ht.
  destruct Hn as [-> | (c & -> & Hc)]; [done |].
  by rewrite Hc.
Qed.

Lemma is_open_inj k q c c' : is_open k q c -> is_open k q c' -> c = c'.
Proof. intros [Hc _] [Hc' _]. rewrite Hc in Hc'. by injection Hc'. Qed.

(** An attached port either has an open counterpart or none that listens. *)
Lemma get_counterpart_attached k p r :
  attached k p r ->
  (exists c, is_open k (counterpart_idx p) c /\
     get_counterpart (tty0tty_table k) (Some p) = Done (Some (counterpart_idx p))) \/
  ((forall c, ~ is_open k (counterpart_idx p) c) /\
     get_counterpart (tty0tty_table k) (Some p) = Done None).
Proof.
  intros Ha. pose proof Ha as (Hp & Ht & [e He]).
  destruct e as [c|].
  - destruct (Z.gtb_spec (open_count c) 0) as [Hgt | Hle].
    + left. exists c. assert (is_open k (counterpart_idx p) c) by (split; [done | lia]).
      split; [done |]. by eapply get_counterpart_open.
    + right. split.
      * intros c' [Hc' Ho']. rewrite He in Hc'. injection Hc' as <-. lia.
      * unfold get_counterpart. rewrite (deref_Some _ _ _ Hp). simpl. rewrite Ht, He.
        destruct (Z.gtb_spec (open_count c) 0); [lia | done].
  - right. split.
    + intros c' [Hc' _]. by rewrite He in Hc'.
    + unfold get_counterpart. rewrite (deref_Some _ _ _ Hp). simpl. by rewrite Ht, He.
Qed.

(** ** Byte relay *)

(** C1, as amended.  A write on a port with [open_count > 0] whose
    counterpart was never created or has [open_count = 0] returns [-EINVAL],
    the value it also returns on a port that is not open; no byte is handed
    to the tty layer and the state is unchanged. *)
Theorem write_without_listener (k : kernel) (t : tty_struct) (p : Z) (r : tty0tty_serial)
    (buffer : list byte) (count : Z) :
  driver_data t = Some p ->
  attached k p r -> open_count r > 0 -> not_listening k (counterpart_idx p) ->
  tty0tty_write k t buffer count = (Done (Neg EINVAL), k).
Proof.
  intros Hd Ha Ho Hn. unfold tty0tty_write. rewrite Hd.
  pose proof Ha as (Hp & _). rewrite (deref_Some _ _ _ Hp). simpl.
  unfold truthy. destruct (Z.eqb_spec (open_count r) 0); [lia |]. simpl.
  by rewrite (get_counterpart_not_listening _ _ _ Ha Hn).
Qed.

Lemma write_without_listener_witness :
  tty0tty_write lonely (handle 0) [x61; x62; x63] 3 = (Done (Neg EINVAL), lonely).
Proof.
  apply (write_without_listener lonely (handle 0) 0
           {| tty := Some 0; open_count := 1; msr := 0; mcr := 0; icount := icount_zero |}).
  - reflexivity.
  - repeat split. by exists None.
  - reflexivity.
  - by left.
Defined.

(** C1, as stated, fails: the write on [lonely]'s port 0 does not succeed
    with 0 bytes. *)
Lemma write_without_listener_not_zero :
  ~ write_without_listener_spec lonely 0 [x61; x62; x63] 3.
Proof.
  intros Hspec.
  specialize (Hspec
    {| tty := Some 0; open_count := 1; msr := 0; mcr := 0; icount := icount_zero |}).
  discriminate Hspec.
  - repeat split. by exists None.
  - reflexivity.
  - by left.
Qed.

(** ** Close *)

Lemma wrap_int_small z : int_range z -> wrap_int z = z.
Proof. unfold int_range, wrap_int. intros Hz. rewrite Z.mod_small; lia. Qed.

(** Looking up a slot or a port after field assignments. *)
Ltac lookup_assigned :=
  repeat first
    [ rewrite slot_assign | rewrite port_assign | rewrite decide_True by done
    | rewrite decide_False by done | rewrite decide_False by (symmetry; done) ].

(** C3, as amended.  A close through an attached port [p] never fails and
    hands nothing to the tty layer.  If the counterpart is open its status
    lines become all-clear, whatever [p]'s open count is; if it is not, its
    slot is untouched.  Port [p]'s record is unchanged when its open count is
    0, and has its open count decremented by exactly 1, nothing else changed,
    when the count is positive.  No other port changes. *)
Theorem close_effect (k : kernel) (t : tty_struct) (p : Z) (r : tty0tty_serial) :
  driver_data t = Some p -> attached k p r ->
  0 <= open_count r -> int_range (open_count r) ->
  exists k',
    tty0tty_close k t = (Done (), k') /\
    calls k' = calls k /\
    (open_count r = 0 -> port (tty0tty_table k') p = Some r) /\
    (open_count r > 0 ->
       port (tty0tty_table k') p = Some (set_open_count (open_count r - 1) r)) /\
    (forall c, is_open k (counterpart_idx p) c ->
       port (tty0tty_table k') (counterpart_idx p) = Some (set_msr 0 c)) /\
    ((forall c, ~ is_open k (counterpart_idx p) c) ->
       slot (tty0tty_table k') (counterpart_idx p) =
       slot (tty0tty_table k) (counterpart_idx p)) /\
    (forall i, i <> p -> i <> counterpart_idx p ->
       slot (tty0tty_table k') i = slot (tty0tty_table k) i).
Proof.
  intros Hd Ha Hnn Hr. pose proof Ha as (Hp & Ht & _).
  pose proof (counterpart_idx_neq p) as Hq.
  assert (Hport : port (tty0tty_table k) p = Some r) by (unfold port; by rewrite Hp).
  unfold tty0tty_close, do_close. rewrite Hd.
  destruct (get_counterpart_attached _ _ _ Ha) as [(c & Hc & ->) | (Hn & ->)].
  - assert (Hcp : port (tty0tty_table k) (counterpart_idx p) = Some c).
    { unfold port. by rewrite (proj1 Hc). }
    rewrite (deref_Some _ p r) by (lookup_assigned; done).
    unfold truthy. destruct (Z.eqb_spec (open_count r) 0) as [Hz | Hz]; simpl.
    + eexists. split; [done |]. simpl. split; [done |].
      split; [intros _; by lookup_assigned |].
      split; [lia |].
      split.
      { intros c' Hc'. rewrite (is_open_inj _ _ _ _ Hc' Hc).
        lookup_assigned. by rewrite Hcp. }
      split; [intros Hno; by destruct (Hno c) |].
      intros i Hi1 Hi2. by lookup_assigned.
    + eexists. split; [done |]. simpl. split; [done |].
      split; [lia |].
      split.
      { intros _. lookup_assigned. rewrite Hport. simpl.
        rewrite wrap_int_small; [done | unfold int_range in *; lia]. }
      split.
      { intros c' Hc'. rewrite (is_open_inj _ _ _ _ Hc' Hc).
        lookup_assigned. by rewrite Hcp. }
      split; [intros Hno; by destruct (Hno c) |].
      intros i Hi1 Hi2. by lookup_assigned.
  - rewrite (deref_Some _ p r) by done.
    unfold truthy. destruct (Z.eqb_spec (open_count r) 0) as [Hz | Hz]; simpl.
    + eexists. split; [done |]. simpl. split; [done |].
      split; [done |]. split; [lia |].
      split; [intros c Hc; by destruct (Hn c) |].
      split; [done |]. done.
    + eexists. split; [done |]. simpl. split; [done |].
      split; [lia |].
      split.
      { intros _. lookup_assigned. rewrite Hport. simpl.
        rewrite wrap_int_small; [done | unfold int_range in *; lia]. }
      split; [intros c Hc; by destruct (Hn c) |].
      split; [intros _; by lookup_assigned |].
      intros i Hi1 Hi2. by lookup_assigned.
Qed.

Lemma close_effect_witness :
  exists k',
    tty0tty_close both_open (handle 0) = (Done (), k') /\
    status k' 1 = 0 /\
    (open_count <$> port (tty0tty_table k') 0) = Some 0.
Proof.
  destruct (close_effect both_open (handle 0) 0
              {| tty := Some 0; open_count := 1; msr := 0; mcr := 0x03;
                 icount := icount_zero |})
    as (k' & Hrun & _ & _ & Hdec & Hclear & _).
  - reflexivity.
  - repeat split. by eexists.
  - simpl. lia.
  - unfold int_range. simpl. lia.
  - exists k'. split; [exact Hrun |]. split.
    + assert (Hc : port (tty0tty_table k') 1 =
                  Some (set_msr 0 {| tty := Some 1; open_count := 1; msr := 0x70;
                                     mcr := 0; icount := icount_zero |})).
      { apply Hclear. split; [reflexivity | simpl; lia]. }
      unfold status. rewrite Hc. reflexivity.
    + rewrite Hdec; [reflexivity | simpl; lia].
Defined.

(** C3, as stated, fails: closing the unopened port 0 of [half_closed]
    changes the state, namely the status lines of port 1. *)
Lemma close_unopened_changes_state : ~ close_unopened_spec half_closed 0.
Proof.
  intros Hspec.
  specialize (Hspec
    {| tty := Some 0; open_count := 0; msr := 0; mcr := 0; icount := icount_zero |}).
  discriminate Hspec.
  - repeat split. by eexists.
  - reflexivity.
Qed.

Example close_unopened_clears_counterpart :
  status half_closed 1 = 0x70 /\ status (snd (tty0tty_close half_closed (handle 0))) 1 = 0.
Proof. split; reflexivity. Qed.

(** ** Setting the modem lines *)

Lemma asserted_MCR_DTR m : asserted m MCR_DTR = Z.testbit m 0.
Proof. change MCR_DTR with (2 ^ 0). by apply asserted_testbit. Qed.
Lemma asserted_MCR_RTS m : asserted m MCR_RTS = Z.testbit m 1.
Proof. change MCR_RTS with (2 ^ 1). by apply asserted_testbit. Qed.
Lemma asserted_MSR_CTS m : asserted m MSR_CTS = Z.testbit m 4.
Proof. change MSR_CTS with (2 ^ 4). by apply asserted_testbit. Qed.
Lemma asserted_MSR_CD m : asserted m MSR_CD = Z.testbit m 5.
Proof. change MSR_CD with (2 ^ 5). by apply asserted_testbit. Qed.
Lemma asserted_MSR_DSR m : asserted m MSR_DSR = Z.testbit m 6.
Proof. change MSR_DSR with (2 ^ 6). by apply asserted_testbit. Qed.

Section Set_lines.
Context `{Termios}.

(** What [tty0tty_tiocmset] does through an attached port: it returns 0,
    stores the new MCR in the port and, if the counterpart is open, the new
    MSR in the counterpart; nothing else changes. *)
Lemma tiocmset_effect (k : kernel) (t : tty_struct) (p : Z) (r : tty0tty_serial)
    (set clear : Z) :
  driver_data t = Some p -> attached k p r ->
  exists k',
    tty0tty_tiocmset k t set clear = (Done (Ret 0), k') /\
    calls k' = calls k /\
    port (tty0tty_table k') p = Some (set_mcr (tiocmset_mcr set clear (mcr r)) r) /\
    (forall c, is_open k (counterpart_idx p) c ->
       port (tty0tty_table k') (counterpart_idx p) =
       Some (set_msr (tiocmset_msr set clear (msr c)) c)) /\
    ((forall c, ~ is_open k (counterpart_idx p) c) ->
       slot (tty0tty_table k') (counterpart_idx p) =
       slot (tty0tty_table k) (counterpart_idx p)) /\
    (forall i, i <> p -> i <> counterpart_idx p ->
       slot (tty0tty_table k') i = slot (tty0tty_table k) i).
Proof.
  intros Hd Ha. pose proof Ha as (Hp & Ht & _).
  pose proof (counterpart_idx_neq p) as Hq.
  assert (Hport : port (tty0tty_table k) p = Some r) by (unfold port; by rewrite Hp).
  unfold tty0tty_tiocmset. rewrite Hd, (deref_Some _ _ _ Hp). simpl.
  destruct (get_counterpart_attached _ _ _ Ha) as [(c & Hc & ->) | (Hn & ->)]; simpl.
  - assert (Hcp : port (tty0tty_table k) (counterpart_idx p) = Some c).
    { unfold port. by rewrite (proj1 Hc). }
    rewrite (proj1 Hc). simpl.
    eexists. split; [done |]. simpl. split; [done |].
    split; [lookup_assigned; by rewrite Hport |].
    split.
    { intros c' Hc'. rewrite (is_open_inj _ _ _ _ Hc' Hc).
      lookup_assigned. by rewrite Hcp. }
    split; [intros Hno; by destruct (Hno c) |].
    intros i Hi1 Hi2. by lookup_assigned.
  - eexists. split; [done |]. simpl. split; [done |].
    split; [lookup_assigned; by rewrite Hport |].
    split; [intros c Hc; by destruct (Hn c) |].
    split; [intros _; by lookup_assigned |].
    intros i Hi1 Hi2. by lookup_assigned.
Qed.

(** The status lines of the open counterpart after [tty0tty_tiocmset], for
    any two masks: a line named in the clear mask ends with its coupled
    status bits cleared (RTS: CTS; DTR: DSR and CD), the clear blocks being
    the last to run; a line named in the set mask only ends with them set; a
    line named in neither keeps them; no other bit of the counterpart's
    status, and no other field of its record, is disturbed. *)
Lemma tiocmset_status_lines (k : kernel) (t : tty_struct) (p : Z)
    (r c : tty0tty_serial) (set clear : Z) :
  driver_data t = Some p -> attached k p r -> is_open k (counterpart_idx p) c ->
  exists k' m',
    tty0tty_tiocmset k t set clear = (Done (Ret 0), k') /\
    port (tty0tty_table k') (counterpart_idx p) = Some (set_msr m' c) /\
    (truthy (Z.land clear TIOCM_RTS) = true -> asserted m' MSR_CTS = false) /\
    (truthy (Z.land clear TIOCM_DTR) = true ->
       asserted m' MSR_DSR = false /\ asserted m' MSR_CD = false) /\
    (truthy (Z.land set TIOCM_RTS) = true -> truthy (Z.land clear TIOCM_RTS) = false ->
       asserted m' MSR_CTS = true) /\
    (truthy (Z.land set TIOCM_DTR) = true -> truthy (Z.land clear TIOCM_DTR) = false ->
       asserted m' MSR_DSR = true /\ asserted m' MSR_CD = true) /\
    (truthy (Z.land set TIOCM_RTS) = false -> truthy (Z.land clear TIOCM_RTS) = false ->
       asserted m' MSR_CTS = asserted (msr c) MSR_CTS) /\
    (truthy (Z.land set TIOCM_DTR) = false -> truthy (Z.land clear TIOCM_DTR) = false ->
       asserted m' MSR_DSR = asserted (msr c) MSR_DSR /\
       asserted m' MSR_CD = asserted (msr c) MSR_CD) /\
    (forall j, Z.testbit MSR_CTS j = false -> Z.testbit MSR_DSR j = false ->
       Z.testbit MSR_CD j = false -> Z.testbit m' j = Z.testbit (msr c) j).
Proof.
  intros Hd Ha Hc.
  destruct (tiocmset_effect k t p r set clear Hd Ha) as (k' & Hrun & _ & _ & Hcp & _).
  exists k', (tiocmset_msr set clear (msr c)).
  split; [done |]. split; [by apply Hcp |].
  assert (Hother : forall j, Z.testbit MSR_CTS j = false -> Z.testbit MSR_DSR j = false ->
            Z.testbit MSR_CD j = false ->
            Z.testbit (tiocmset_msr set clear (msr c)) j = Z.testbit (msr c) j).
  { intros j H4 H5 H6. rewrite testbit_MSR_CTS in H4. rewrite testbit_MSR_DSR in H5.
    rewrite testbit_MSR_CD in H6.
    destruct (Z.ltb_spec j 0) as [Hneg | Hpos].
    - by rewrite !Z.testbit_neg_r.
    - rewrite tiocmset_msr_testbit by done.
      destruct (Z.eqb_spec j 4), (Z.eqb_spec j 5), (Z.eqb_spec j 6); subst; done. }
  rewrite !asserted_MSR_CTS, !asserted_MSR_DSR, !asserted_MSR_CD.
  rewrite !tiocmset_msr_testbit by lia. cbn [Z.eqb Pos.eqb orb].
  destruct (truthy (Z.land set TIOCM_RTS)), (truthy (Z.land set TIOCM_DTR)),
    (truthy (Z.land clear TIOCM_RTS)), (truthy (Z.land clear TIOCM_DTR));
    repeat split; try discriminate; try reflexivity; try exact Hother.
Qed.

(** C4.  After [tty0tty_tiocmset] on an attached port [p] whose counterpart
    is open with record [c], the masks naming no line both to set and to
    clear: asserting RTS sets CTS in the counterpart's status, asserting DTR
    sets both DSR and CD, clearing RTS clears CTS, clearing DTR clears both
    DSR and CD, and no other status bit of the counterpart, nor any other
    field of its record, is disturbed; a line named in neither mask leaves
    its status bits as they were. *)
Theorem null_modem_transfer (k : kernel) (t : tty_struct) (p : Z)
    (r c : tty0tty_serial) (set clear : Z) :
  driver_data t = Some p -> attached k p r -> is_open k (counterpart_idx p) c ->
  one_way_masks set clear ->
  exists k' m',
    tty0tty_tiocmset k t set clear = (Done (Ret 0), k') /\
    port (tty0tty_table k') (counterpart_idx p) = Some (set_msr m' c) /\
    (truthy (Z.land set TIOCM_RTS) = true -> asserted m' MSR_CTS = true) /\
    (truthy (Z.land set TIOCM_DTR) = true ->
       asserted m' MSR_DSR = true /\ asserted m' MSR_CD = true) /\
    (truthy (Z.land clear TIOCM_RTS) = true -> asserted m' MSR_CTS = false) /\
    (truthy (Z.land clear TIOCM_DTR) = true ->
       asserted m' MSR_DSR = false /\ asserted m' MSR_CD = false) /\
    (truthy (Z.land set TIOCM_RTS) = false -> truthy (Z.land clear TIOCM_RTS) = false ->
       asserted m' MSR_CTS = asserted (msr c) MSR_CTS) /\
    (truthy (Z.land set TIOCM_DTR) = false -> truthy (Z.land clear TIOCM_DTR) = false ->
       asserted m' MSR_DSR = asserted (msr c) MSR_DSR /\
       asserted m' MSR_CD = asserted (msr c) MSR_CD) /\
    (forall j, Z.testbit MSR_CTS j = false -> Z.testbit MSR_DSR j = false ->
       Z.testbit MSR_CD j = false -> Z.testbit m' j = Z.testbit (msr c) j).
Proof.
  intros Hd Ha Hc [Hrts Hdtr].
  destruct (tiocmset_status_lines k t p r c set clear Hd Ha Hc)
    as (k' & m' & Hrun & Hport & Hclr_rts & Hclr_dtr & Hset_rts & Hset_dtr &
        Hkeep_rts & Hkeep_dtr & Hother).
  exists k', m'.
  split; [exact Hrun |]. split; [exact Hport |].
  split; [intros Hs; apply Hset_rts; [exact Hs | by apply Hrts] |].
  split; [intros Hs; apply Hset_dtr; [exact Hs | by apply Hdtr] |].
  split; [exact Hclr_rts |]. split; [exact Hclr_dtr |].
  split; [exact Hkeep_rts |]. split; [exact Hkeep_dtr | exact Hother].
Qed.

(** The law in the specification's own words follows for such masks. *)
Lemma transfer_law_holds (k : kernel) (p : Z) (set clear : Z) :
  one_way_masks set clear -> transfer_law_spec k p set clear.
Proof.
  intros [Hrts Hdtr] r c c' Ha Hc Hc'.
  destruct (tiocmset_status_lines k (handle p) p r c set clear eq_refl Ha Hc)
    as (k' & m' & Hrun & Hport & Hclr_rts & Hclr_dtr & Hset_rts & Hset_dtr & _ & _ & Hother).
  rewrite Hrun in Hc'. simpl in Hc'. rewrite Hport in Hc'. injection Hc' as <-. simpl.
  split; [intros Hs; apply Hset_rts; [exact Hs | by apply Hrts] |].
  split; [intros Hs; apply Hset_dtr; [exact Hs | by apply Hdtr] |].
  split; [exact Hclr_rts |]. split; [exact Hclr_dtr | exact Hother].
Qed.

End Set_lines.

Lemma both_idle_attached p : p = 0 \/ p = 1 -> attached both_idle p (idle_port p).
Proof. intros [-> | ->]; repeat split; by eexists. Defined.

Lemma both_idle_open p : p = 0 \/ p = 1 -> is_open both_idle p (idle_port p).
Proof. intros [-> | ->]; split; reflexivity. Defined.

Lemma null_modem_transfer_witness :
  exists k' m',
    tty0tty_tiocmset (H := asm_generic) both_open (handle 0)
      (TIOCM_RTS (Termios := asm_generic)) (TIOCM_DTR (Termios := asm_generic))
      = (Done (Ret 0), k') /\
    port (tty0tty_table k') 1 =
      Some (set_msr m' {| tty := Some 1; open_count := 1; msr := 0x70; mcr := 0;
                          icount := icount_zero |}) /\
    asserted m' MSR_CTS = true /\ asserted m' MSR_DSR = false /\ asserted m' MSR_CD = false.
Proof.
  destruct (null_modem_transfer (H := asm_generic) both_open (handle 0) 0
              {| tty := Some 0; open_count := 1; msr := 0; mcr := 0x03; icount := icount_zero |}
              {| tty := Some 1; open_count := 1; msr := 0x70; mcr := 0; icount := icount_zero |}
              (TIOCM_RTS (Termios := asm_generic)) (TIOCM_DTR (Termios := asm_generic)))
    as (k' & m' & Hrun & Hport & Hrts & _ & _ & Hdtr & _).
  - reflexivity.
  - repeat split. by eexists.
  - split; reflexivity.
  - split; [intros _; reflexivity | intros Hs; discriminate Hs].
  - exists k', m'.
    split; [exact Hrun |]. split; [exact Hport |].
    split; [by apply Hrts |]. by apply Hdtr.
Defined.

(** ** What no request touches: the interrupt counters *)

Lemma port_poke_fresh p r0 tbl i :
  slot tbl p = Some None ->
  port (poke p (Some r0) tbl) i = if decide (i = p) then Some r0 else port tbl i.
Proof.
  intros Hp. unfold port. rewrite slot_poke. case_decide; [| done].
  subst. by rewrite Hp.
Qed.

Lemma counters_assign k p f tbl i :
  (forall r, icount (f r) = icount r) ->
  counters (with_table k (assign p f tbl)) i = counters (with_table k tbl) i.
Proof.
  intros Hf. unfold counters. simpl. rewrite port_assign.
  case_decide; [| done]. destruct (port tbl i); simpl; by rewrite ?Hf.
Qed.

Lemma counters_poke_fresh k p r0 tbl i :
  slot tbl p = Some None -> icount r0 = icount_zero ->
  counters (with_table k (poke p (Some r0) tbl)) i = counters (with_table k tbl) i.
Proof.
  intros Hp Hz. unfold counters. simpl. rewrite port_poke_fresh by done.
  case_decide; [| done]. subst. unfold port. by rewrite Hp.
Qed.

Lemma counters_with_table k i : counters (with_table k (tty0tty_table k)) i = counters k i.
Proof. done. Qed.

(** Rewriting the counters of a state reached by assignments back to those
    of the state before. *)
Ltac same_counters :=
  repeat first
    [ rewrite counters_assign by done
    | rewrite counters_poke_fresh by done
    | rewrite counters_with_table ];
  try done.

Lemma counters_open k t kzalloc_ok i :
  counters (snd (tty0tty_open k t kzalloc_ok)) i = counters k i.
Proof.
  unfold tty0tty_open.
  destruct (slot (tty0tty_table k) (index t)) as [[r|]|] eqn:Hs; simpl; [| | done].
  - destruct (get_counterpart _ _) as [[q|]|]; simpl; [| same_counters..].
    destruct (slot _ q) as [[c|]|]; simpl; same_counters.
  - destruct kzalloc_ok; simpl; [| done].
    destruct (get_counterpart _ _) as [[q|]|]; simpl; [| same_counters..].
    destruct (slot _ q) as [[c|]|]; simpl; same_counters.
Qed.

Lemma counters_do_close k p i : counters (snd (do_close k p)) i = counters k i.
Proof.
  unfold do_close.
  destruct (get_counterpart _ _) as [[q|]|]; simpl; [| | done].
  - destruct (deref _ p), p; simpl; try same_counters.
    destruct (negb _); simpl; same_counters.
  - destruct (deref _ p), p; simpl; try same_counters.
    destruct (negb _); simpl; same_counters.
Qed.

Lemma counters_close k t i : counters (snd (tty0tty_close k t)) i = counters k i.
Proof.
  unfold tty0tty_close. destruct (driver_data t); [| done]. apply counters_do_close.
Qed.

Lemma counters_write k t buffer count i :
  counters (snd (tty0tty_write k t buffer count)) i = counters k i.
Proof.
  unfold tty0tty_write. destruct (driver_data t); [| done].
  by destruct (_ ≫= _) as [[ttyx|]|].
Qed.

Section Counters.
Context `{Termios}.

Lemma counters_tiocmset k t set clear i :
  counters (snd (tty0tty_tiocmset k t set clear)) i = counters k i.
Proof.
  unfold tty0tty_tiocmset.
  destruct (_ ≫= _) as [[[mcr0 [q|]] msr0]|], (driver_data t); simpl; same_counters.
Qed.

(** No request changes the interrupt counters of any port. *)
Lemma counters_serve k q i : counters (serve k q) i = counters k i.
Proof.
  destruct q; simpl;
    auto using counters_open, counters_close, counters_write, counters_tiocmset.
Qed.

Lemma counters_init pairs i : counters (tty0tty_init pairs) i = icount_zero.
Proof.
  unfold counters, port, slot, tty0tty_init. simpl.
  destruct (i <? 0); [done |].
  destruct (replicate _ None !! Z.to_nat i) as [e|] eqn:He; [| done].
  apply lookup_replicate in He as [-> _]. done.
Qed.

Lemma counters_reachable k i : reachable k -> counters k i = icount_zero.
Proof.
  induction 1 as [pairs | k q _ IH].
  - apply counters_init.
  - by rewrite counters_serve.
Qed.

End Counters.

Section Counting.
Context `{Termios}.

Lemma calls_tiocmset k t set clear :
  calls (snd (tty0tty_tiocmset k t set clear)) = calls k.
Proof.
  unfold tty0tty_tiocmset.
  by destruct (_ ≫= _) as [[[mcr0 [q|]] msr0]|], (driver_data t).
Qed.

(** C2, as amended.  No [set_control_lines] call changes an interrupt
    counter of any port, whether or not it makes a status line of the
    counterpart change: the counters do not decrease and do not move without
    a transition, and they do not move with one either.  The call makes no
    call out of the driver, so it signals nothing. *)
Theorem tiocmset_counts_nothing (k : kernel) (t : tty_struct) (set clear : Z) (i : Z) :
  counters (snd (tty0tty_tiocmset k t set clear)) i = counters k i /\
  calls (snd (tty0tty_tiocmset k t set clear)) = calls k.
Proof. split; [apply counters_tiocmset | apply calls_tiocmset]. Qed.

End Counting.

(** C2, as stated, fails: raising RTS on port 0 of [both_idle] raises CTS
    on port 1 and leaves port 1's CTS counter at 0. *)
Lemma cts_transition_not_counted :
  ~ counts_transitions_spec (H := asm_generic) both_idle 0
      (TIOCM_RTS (Termios := asm_generic)) 0.
Proof.
  intros Hspec. destruct (Hspec CTS) as (Hinc & _).
  discriminate Hinc. discriminate.
Qed.

Example cts_transition_happens :
  asserted (status both_idle 1) MSR_CTS = false /\
  asserted (status (snd (tty0tty_tiocmset (H := asm_generic) both_idle (handle 0) 0x004 0)) 1)
    MSR_CTS = true /\
  cts (counters (snd (tty0tty_tiocmset (H := asm_generic) both_idle (handle 0) 0x004 0)) 1)
  = 0.
Proof. repeat split. Qed.

(** ** The status-change wait *)

Section Wait.
Context `{Termios}.

Lemma none_changed_iff cprev cnow :
  (rng cnow =? rng cprev) && (dsr cnow =? dsr cprev) &&
  (dcd cnow =? dcd cprev) && (cts cnow =? cts cprev) = true <->
  forall l, ~ changed cprev cnow l.
Proof.
  unfold changed. rewrite !andb_true_iff, !Z.eqb_eq. split.
  - intros [[[? ?] ?] ?] []; simpl; lia.
  - intros Hall.
    pose proof (Hall RNG). pose proof (Hall DSR). pose proof (Hall DCD).
    pose proof (Hall CTS). simpl in *. lia.
Qed.

Lemma requested_changed_iff arg cprev cnow :
  (truthy (Z.land arg TIOCM_RNG) && negb (rng cnow =? rng cprev)) ||
  (truthy (Z.land arg TIOCM_DSR) && negb (dsr cnow =? dsr cprev)) ||
  (truthy (Z.land arg TIOCM_CD) && negb (dcd cnow =? dcd cprev)) ||
  (truthy (Z.land arg TIOCM_CTS) && negb (cts cnow =? cts cprev)) = true <->
  exists l, requested arg l /\ changed cprev cnow l.
Proof.
  unfold requested, changed, truthy.
  rewrite !orb_true_iff, !andb_true_iff, !negb_true_iff, !Z.eqb_neq. split.
  - intros [[[? | ?] | ?] | ?]; [exists RNG | exists DSR | exists DCD | exists CTS]; done.
  - intros [[] ?]; simpl in *; tauto.
Qed.

(** The call takes its first snapshot when it is entered. *)
Lemma tiocmiwait_entry (k : kernel) (t : tty_struct) (arg : Z) (wakeups : list wakeup)
    (r : tty0tty_serial) :
  deref (tty0tty_table k) (driver_data t) = Done r ->
  tty0tty_ioctl_tiocmiwait k t TIOCMIWAIT arg wakeups =
  tiocmiwait_loop (driver_data t) arg (icount r) wakeups.
Proof. intros Hr. unfold tty0tty_ioctl_tiocmiwait. by rewrite Z.eqb_refl, Hr. Qed.

(** C6.  One wake-up of a task waiting in TIOCMIWAIT with the mask [arg]
    and the snapshot [cprev]: with a signal pending the call returns
    [-ERESTARTSYS]; else, the port's counters being [icount r] at that
    moment, if none of the RNG, DSR, DCD and CTS counters differs from the
    snapshot it returns [-EIO]; else, if the counter of a line in the mask
    differs, it returns 0; else the counters become the snapshot and the
    task sleeps again, until the next wake-up. *)
Theorem status_change_wait (tty0tty : option Z) (arg : Z) (cprev : async_icount)
    (w : wakeup) (rest : list wakeup) :
  (signal_pending w = true ->
     tiocmiwait_loop tty0tty arg cprev (w :: rest) = Some (Done (Neg ERESTARTSYS))) /\
  (forall r,
     signal_pending w = false -> deref (tty0tty_table (now w)) tty0tty = Done r ->
     ((forall l, ~ changed cprev (icount r) l) ->
        tiocmiwait_loop tty0tty arg cprev (w :: rest) = Some (Done (Neg EIO))) /\
     ((exists l, requested arg l /\ changed cprev (icount r) l) ->
        tiocmiwait_loop tty0tty arg cprev (w :: rest) = Some (Done (Ret 0))) /\
     ((exists l, changed cprev (icount r) l) ->
      (forall l, requested arg l -> ~ changed cprev (icount r) l) ->
        tiocmiwait_loop tty0tty arg cprev (w :: rest) =
        tiocmiwait_loop tty0tty arg (icount r) rest) /\
     tiocmiwait_loop tty0tty arg (icount r) [] = None).
Proof.
  split; [simpl; by intros -> |].
  intros r Hs Hr. simpl. rewrite Hs, Hr.
  split.
  { intros Hnone. apply none_changed_iff in Hnone. by rewrite Hnone. }
  split.
  { intros Hreq.
    destruct (_ && _) eqn:Hnone.
    - pose proof (proj1 (none_changed_iff _ _) Hnone) as Hall.
      destruct Hreq as (l & _ & Hl). by destruct (Hall l).
    - apply requested_changed_iff in Hreq. by rewrite Hreq. }
  split; [| done].
  intros [l Hl] Hno.
  destruct (_ && _) eqn:Hnone.
  - pose proof (proj1 (none_changed_iff _ _) Hnone) as Hall. by destruct (Hall l).
  - destruct (_ || _) eqn:Hreq; [| done].
    destruct (proj1 (requested_changed_iff _ _ _) Hreq) as (l' & Hl1 & Hl2).
    by destruct (Hno l').
Qed.

Lemma deref_port tbl p :
  deref tbl (Some p) = match port tbl p with Some r => Done r | None => Fault end.
Proof. unfold deref, port. by destruct (slot tbl p) as [[?|]|]. Qed.

Lemma icount_reachable k p r :
  reachable k -> port (tty0tty_table k) p = Some r -> icount r = icount_zero.
Proof.
  intros Hk Hp. pose proof (counters_reachable k p Hk) as Hc.
  unfold counters in Hc. by rewrite Hp in Hc.
Qed.

(** C8.  No request changes the interrupt counters of any port; so in
    every reachable state all counters of every port are zero; so a
    TIOCMIWAIT issued and woken in reachable states never returns 0, and
    on a port with a record it returns [-EIO] at its first wake-up unless a
    signal is pending then. *)
Theorem counters_stay_zero :
  (forall k q i, counters (serve k q) i = counters k i) /\
  (forall k i, reachable k -> counters k i = icount_zero) /\
  (forall k t arg wakeups,
     reachable k -> Forall (fun w => reachable (now w)) wakeups ->
     tty0tty_ioctl_tiocmiwait k t TIOCMIWAIT arg wakeups <> Some (Done (Ret 0))) /\
  (forall k t p arg w rest,
     reachable k -> reachable (now w) -> driver_data t = Some p ->
     is_Some (port (tty0tty_table k) p) -> is_Some (port (tty0tty_table (now w)) p) ->
     signal_pending w = false ->
     tty0tty_ioctl_tiocmiwait k t TIOCMIWAIT arg (w :: rest) = Some (Done (Neg EIO))).
Proof.
  split; [apply counters_serve |].
  split; [intros k i Hk; by apply counters_reachable |].
  split.
  - intros k t arg wakeups Hk Hw. unfold tty0tty_ioctl_tiocmiwait.
    rewrite Z.eqb_refl. destruct (driver_data t) as [p|]; [| done].
    rewrite deref_port. destruct (port (tty0tty_table k) p) as [r|] eqn:Hp; [| done].
    rewrite (icount_reachable k p r Hk Hp).
    destruct Hw as [| w rest Hw _]; cbn [tiocmiwait_loop]; [done |].
    destruct (signal_pending w); [done |].
    rewrite deref_port. destruct (port (tty0tty_table (now w)) p) as [r'|] eqn:Hp'; [| done].
    by rewrite (icount_reachable (now w) p r' Hw Hp').
  - intros k t p arg w rest Hk Hw Hd [r Hp] [r' Hp'] Hs. unfold tty0tty_ioctl_tiocmiwait.
    rewrite Z.eqb_refl, Hd, deref_port, Hp. cbn [tiocmiwait_loop].
    rewrite Hs, deref_port, Hp'.
    by rewrite (icount_reachable k p r Hk Hp), (icount_reachable (now w) p r' Hw Hp').
Qed.

End Wait.

Lemma status_change_wait_witness :
  tiocmiwait_loop (H := asm_generic) (Some 1) (TIOCM_CTS (Termios := asm_generic))
    icount_zero [{| signal_pending := false; now := cts_counted |}]
  = Some (Done (Ret 0)) /\
  tiocmiwait_loop (H := asm_generic) (Some 1) (TIOCM_DSR (Termios := asm_generic))
    icount_zero [{| signal_pending := false; now := cts_counted |}]
  = None /\
  tiocmiwait_loop (H := asm_generic) (Some 1) (TIOCM_CTS (Termios := asm_generic))
    icount_zero [{| signal_pending := false; now := both_idle |}]
  = Some (Done (Neg EIO)).
Proof.
  destruct (status_change_wait (H := asm_generic) (Some 1)
              (TIOCM_CTS (Termios := asm_generic)) icount_zero
              {| signal_pending := false; now := cts_counted |} []) as (_ & Hcts).
  destruct (Hcts {| tty := Some 1; open_count := 1; msr := 0x10; mcr := 0;
                    icount := counters cts_counted 1 |} eq_refl eq_refl)
    as (_ & Hok & _).
  destruct (status_change_wait (H := asm_generic) (Some 1)
              (TIOCM_DSR (Termios := asm_generic)) icount_zero
              {| signal_pending := false; now := cts_counted |} []) as (_ & Hdsr).
  destruct (Hdsr {| tty := Some 1; open_count := 1; msr := 0x10; mcr := 0;
                    icount := counters cts_counted 1 |} eq_refl eq_refl)
    as (_ & _ & Hagain & Hblock).
  destruct (status_change_wait (H := asm_generic) (Some 1)
              (TIOCM_CTS (Termios := asm_generic)) icount_zero
              {| signal_pending := false; now := both_idle |} []) as (_ & Hidle).
  destruct (Hidle (idle_port 1) eq_refl eq_refl) as (Hnone & _).
  split; [| split].
  - apply Hok. exists CTS. split; discriminate.
  - rewrite Hagain; [exact Hblock | |].
    + exists CTS. discriminate.
    + intros [] Hreq Hch; (by destruct Hreq) || (by destruct Hch).
  - apply Hnone. intros [] Hch; by destruct Hch.
Defined.

Lemma counters_stay_zero_witness :
  counters first_request 0 = icount_zero /\
  tty0tty_ioctl_tiocmiwait (H := asm_generic) first_request (handle 0)
    (TIOCMIWAIT (Termios := asm_generic)) (TIOCM_CTS (Termios := asm_generic))
    [{| signal_pending := false; now := first_request |}]
  = Some (Done (Neg EIO)).
Proof.
  destruct (counters_stay_zero (H := asm_generic)) as (_ & Hzero & _ & Hwait).
  assert (Hreach : reachable (H := asm_generic) first_request)
    by apply reachable_serve, reachable_init.
  split.
  - by apply Hzero.
  - apply (Hwait first_request (handle 0) 0); try done; by eexists.
Defined.

(** ** The LOOP line *)

Lemma loop_line_assign k p f tbl i :
  (forall r, mcr (f r) = mcr r) ->
  loop_line (with_table k (assign p f tbl)) i = loop_line (with_table k tbl) i.
Proof.
  intros Hf. unfold loop_line. simpl. rewrite port_assign.
  case_decide; [| done]. destruct (port tbl i); simpl; by rewrite ?Hf.
Qed.

Lemma loop_line_assign_mcr k p v tbl i :
  loop_line (with_table k (assign p (set_mcr v) tbl)) i =
    if decide (i = p)
    then match port tbl p with Some _ => Z.land v MCR_LOOP | None => 0 end
    else loop_line (with_table k tbl) i.
Proof.
  unfold loop_line. simpl. rewrite port_assign.
  case_decide; [| done]. subst. by destruct (port tbl p).
Qed.

Lemma loop_line_poke_fresh k p r0 tbl i :
  slot tbl p = Some None -> mcr r0 = 0 ->
  loop_line (with_table k (poke p (Some r0) tbl)) i = loop_line (with_table k tbl) i.
Proof.
  intros Hp Hz. unfold loop_line. simpl. rewrite port_poke_fresh by done.
  case_decide; [| done]. subst. unfold port. by rewrite Hp, Hz.
Qed.

Lemma loop_line_with_table k i : loop_line (with_table k (tty0tty_table k)) i = loop_line k i.
Proof. done. Qed.

Ltac same_loop :=
  repeat first
    [ rewrite loop_line_assign by done
    | rewrite loop_line_poke_fresh by done
    | rewrite loop_line_with_table ];
  try done.

Lemma loop_line_open k t kzalloc_ok i :
  loop_line (snd (tty0tty_open k t kzalloc_ok)) i = loop_line k i \/
  loop_line (snd (tty0tty_open k t kzalloc_ok)) i = 0.
Proof.
  assert (Hdone : forall tbl v,
            loop_line (with_table k tbl) i = loop_line k i ->
            loop_line (with_table k
              (assign (index t) (fun r => set_open_count (wrap_int (open_count r + 1)) r)
                 (assign (index t) (set_tty (Some (index t)))
                    (assign (index t) (set_mcr 0)
                       (assign (index t) (set_msr v) tbl))))) i = loop_line k i \/
            loop_line (with_table k
              (assign (index t) (fun r => set_open_count (wrap_int (open_count r + 1)) r)
                 (assign (index t) (set_tty (Some (index t)))
                    (assign (index t) (set_mcr 0)
                       (assign (index t) (set_msr v) tbl))))) i = 0).
  { intros tbl v Htbl. rewrite !loop_line_assign by done. rewrite loop_line_assign_mcr.
    case_decide.
    - right. by destruct (port _ _).
    - left. by rewrite loop_line_assign. }
  unfold tty0tty_open.
  destruct (slot (tty0tty_table k) (index t)) as [[r|]|] eqn:Hs; simpl; [| | by left].
  - destruct (get_counterpart _ _) as [[q|]|]; simpl; [| by apply Hdone | by left].
    destruct (slot _ q) as [[c|]|]; simpl; (by apply Hdone) || by left.
  - destruct kzalloc_ok; simpl; [| by left].
    assert (Hfresh : loop_line (with_table k
              (poke (index t) (Some (set_open_count 0 kzalloc)) (tty0tty_table k))) i
            = loop_line k i) by same_loop.
    destruct (get_counterpart _ _) as [[q|]|]; simpl; [| by apply Hdone | by left].
    destruct (slot _ q) as [[c|]|]; simpl; (by apply Hdone) || by left.
Qed.

Lemma loop_line_do_close k p i : loop_line (snd (do_close k p)) i = loop_line k i.
Proof.
  unfold do_close.
  destruct (get_counterpart _ _) as [[q|]|]; simpl; [| | done].
  - destruct (deref _ p), p; simpl; try same_loop.
    destruct (negb _); simpl; same_loop.
  - destruct (deref _ p), p; simpl; try same_loop.
    destruct (negb _); simpl; same_loop.
Qed.

Lemma loop_line_close k t i : loop_line (snd (tty0tty_close k t)) i = loop_line k i.
Proof.
  unfold tty0tty_close. destruct (driver_data t); [| done]. apply loop_line_do_close.
Qed.

Lemma loop_line_write k t buffer count i :
  loop_line (snd (tty0tty_write k t buffer count)) i = loop_line k i.
Proof.
  unfold tty0tty_write. destruct (driver_data t); [| done].
  by destruct (_ ≫= _) as [[ttyx|]|].
Qed.

Lemma loop_line_init pairs i : loop_line (tty0tty_init pairs) i = 0.
Proof.
  unfold loop_line, port, slot, tty0tty_init. simpl.
  destruct (i <? 0); [done |].
  destruct (replicate _ None !! Z.to_nat i) as [e|] eqn:He; [| done].
  apply lookup_replicate in He as [-> _]. done.
Qed.

Section Loop.
Context `{Termios}.

Lemma tiocmset_mcr_loop set clear m :
  Z.land (tiocmset_mcr set clear m) MCR_LOOP = Z.land m MCR_LOOP.
Proof.
  apply Z.bits_inj'. intros j Hj.
  rewrite !Z.land_spec, tiocmset_mcr_testbit, testbit_MCR_LOOP by done.
  destruct (Z.eqb_spec 2 j); subst; [done |]. by rewrite !andb_false_r.
Qed.

Lemma loop_line_tiocmset k t set clear i :
  loop_line (snd (tty0tty_tiocmset k t set clear)) i = loop_line k i.
Proof.
  unfold tty0tty_tiocmset. destruct (driver_data t) as [p|]; simpl.
  2: done.
  destruct (slot (tty0tty_table k) p) as [[r|]|] eqn:Hs; simpl; [| done..].
  assert (Hp : loop_line (with_table k
             (assign p (set_mcr (tiocmset_mcr set clear (mcr r))) (tty0tty_table k))) i
           = loop_line k i).
  { rewrite loop_line_assign_mcr. case_decide; [| done]. subst.
    unfold loop_line, port. by rewrite Hs, tiocmset_mcr_loop. }
  destruct (get_counterpart _ _) as [[q|]|]; simpl; [| done..].
  destruct (slot _ q) as [[c|]|]; simpl; [| done..].
  by rewrite loop_line_assign.
Qed.

(** C9.  [tty0tty_tiocmset] leaves the LOOP bit of every port's MCR as it
    was, whatever the two masks are; no request of any kind can raise it (a
    request leaves it as it was or clears it); and it is clear on every port
    in every reachable state. *)
Theorem loop_is_read_only :
  (forall k t set clear i,
     loop_line (snd (tty0tty_tiocmset k t set clear)) i = loop_line k i) /\
  (forall k q i, loop_line (serve k q) i = loop_line k i \/ loop_line (serve k q) i = 0) /\
  (forall k i, reachable k -> loop_line k i = 0).
Proof.
  assert (Hserve : forall k q i,
            loop_line (serve k q) i = loop_line k i \/ loop_line (serve k q) i = 0).
  { intros k q i. destruct q; simpl;
      auto using loop_line_open, loop_line_close, loop_line_write, loop_line_tiocmset. }
  split; [apply loop_line_tiocmset |]. split; [exact Hserve |].
  intros k i. induction 1 as [pairs | k q _ IH].
  - apply loop_line_init.
  - destruct (Hserve k q i) as [-> | ->]; done.
Qed.

End Loop.

Lemma loop_is_read_only_witness :
  loop_line first_request 0 = 0 /\
  loop_line (snd (tty0tty_tiocmset (H := asm_generic) both_open (handle 0)
                    (TIOCM_LOOP (Termios := asm_generic)) 0)) 0
  = loop_line both_open 0.
Proof.
  destruct (loop_is_read_only (H := asm_generic)) as (Hset & _ & Hreach).
  split.
  - apply Hreach. apply reachable_serve, reachable_init.
  - apply Hset.
Defined.

(** ** Modem lines of a port that is not open *)

Section Closed_port.
Context `{Termios}.

(** C10.  On an attached port whose open count is 0 both modem-line
    calls still succeed.  [tty0tty_tiocmget] returns the bit vector of the
    port's registers.  [tty0tty_tiocmset] returns 0 and stores the new MCR
    in the port: RTS and DTR are off if the clear mask names them, else on if
    the set mask names them, else as before.  If the counterpart is open it
    also stores the new MSR there: CTS follows RTS, and DSR and CD follow
    DTR, in the same way. *)
Theorem modem_lines_on_closed_port (k : kernel) (t : tty_struct) (p : Z)
    (r : tty0tty_serial) (set clear : Z) :
  driver_data t = Some p -> attached k p r -> open_count r = 0 ->
  tty0tty_tiocmget k t = Done (Ret (tiocmget_result (mcr r) (msr r))) /\
  exists k' m',
    tty0tty_tiocmset k t set clear = (Done (Ret 0), k') /\
    port (tty0tty_table k') p = Some (set_mcr m' r) /\
    asserted m' MCR_RTS =
      (if truthy (Z.land clear TIOCM_RTS) then false
       else if truthy (Z.land set TIOCM_RTS) then true else asserted (mcr r) MCR_RTS) /\
    asserted m' MCR_DTR =
      (if truthy (Z.land clear TIOCM_DTR) then false
       else if truthy (Z.land set TIOCM_DTR) then true else asserted (mcr r) MCR_DTR) /\
    (forall c, is_open k (counterpart_idx p) c ->
       exists s',
         port (tty0tty_table k') (counterpart_idx p) = Some (set_msr s' c) /\
         asserted s' MSR_CTS =
           (if truthy (Z.land clear TIOCM_RTS) then false
            else if truthy (Z.land set TIOCM_RTS) then true else asserted (msr c) MSR_CTS) /\
         asserted s' MSR_DSR =
           (if truthy (Z.land clear TIOCM_DTR) then false
            else if truthy (Z.land set TIOCM_DTR) then true else asserted (msr c) MSR_DSR) /\
         asserted s' MSR_CD =
           (if truthy (Z.land clear TIOCM_DTR) then false
            else if truthy (Z.land set TIOCM_DTR) then true else asserted (msr c) MSR_CD)).
Proof.
  intros Hd Ha _. pose proof Ha as (Hp & _). split.
  - unfold tty0tty_tiocmget. by rewrite Hd, (deref_Some _ _ _ Hp).
  - destruct (tiocmset_effect k t p r set clear Hd Ha) as (k' & Hrun & _ & Hport & Hcp & _).
    exists k', (tiocmset_mcr set clear (mcr r)).
    split; [done |]. split; [done |].
    rewrite !asserted_MCR_RTS, !asserted_MCR_DTR, !tiocmset_mcr_testbit by lia.
    split; [done |]. split; [done |].
    intros c Hc. exists (tiocmset_msr set clear (msr c)).
    split; [by apply Hcp |].
    rewrite !asserted_MSR_CTS, !asserted_MSR_DSR, !asserted_MSR_CD.
    by rewrite !tiocmset_msr_testbit by lia.
Qed.

End Closed_port.

Lemma modem_lines_on_closed_port_witness :
  tty0tty_tiocmget (H := asm_generic) half_closed (handle 0) = Done (Ret 0) /\
  exists k' m',
    tty0tty_tiocmset (H := asm_generic) half_closed (handle 0)
      (TIOCM_RTS (Termios := asm_generic)) (TIOCM_DTR (Termios := asm_generic))
      = (Done (Ret 0), k') /\
    port (tty0tty_table k') 0 =
      Some (set_mcr m' {| tty := Some 0; open_count := 0; msr := 0; mcr := 0;
                          icount := icount_zero |}) /\
    asserted m' MCR_RTS = true /\ asserted m' MCR_DTR = false /\
    asserted (status k' 1) MSR_CTS = true /\ asserted (status k' 1) MSR_DSR = false.
Proof.
  destruct (modem_lines_on_closed_port (H := asm_generic) half_closed (handle 0) 0
              {| tty := Some 0; open_count := 0; msr := 0; mcr := 0; icount := icount_zero |}
              (TIOCM_RTS (Termios := asm_generic)) (TIOCM_DTR (Termios := asm_generic)))
    as (Hget & k' & m' & Hrun & Hport & Hrts & Hdtr & Hcp).
  - reflexivity.
  - repeat split. by eexists.
  - reflexivity.
  - split; [exact Hget |]. exists k', m'.
    split; [exact Hrun |]. split; [exact Hport |].
    split; [exact Hrts |]. split; [exact Hdtr |].
    destruct (Hcp {| tty := Some 1; open_count := 1; msr := 0x70; mcr := 0;
                     icount := icount_zero |}) as (s' & Hs & Hcts & Hdsr & _).
    + split; reflexivity.
    + unfold status.
      change (counterpart_idx 0) with 1 in Hs. rewrite Hs. simpl msr.
      split; [exact Hcts | exact Hdsr].
Defined.

(** ** Open *)

(** C5, where it fails.  The first open of a port, one whose slot of the
    table is still NULL, allocates the port's record with [open_count = 0]
    and all lines clear, stores it in the table, and then faults:
    [get_counterpart] reads [tty0tty->tty->index] while the record's [tty] is
    still the NULL of [kzalloc] (it is assigned further down in
    [tty0tty_open]).  The open therefore sets no status lines and does not
    count itself, and the tty is left with [driver_data = NULL]. *)
Theorem first_open_faults (k : kernel) (t : tty_struct) :
  slot (tty0tty_table k) (index t) = Some None ->
  tty0tty_open k t true =
    (Fault, {| index := index t; driver_data := None |},
     with_table k (poke (index t) (Some kzalloc) (tty0tty_table k))).
Proof.
  intros Hs. unfold tty0tty_open. rewrite Hs. simpl.
  unfold get_counterpart, deref. rewrite slot_poke, decide_True by done.
  by rewrite Hs.
Qed.

(** The first open of port 0 of a freshly initialised pair. *)
Lemma first_open_faults_witness :
  tty0tty_open (tty0tty_init 1) {| index := 0; driver_data := None |} true =
    (Fault, {| index := 0; driver_data := None |},
     {| tty0tty_table := [Some kzalloc; None]; calls := [] |}).
Proof.
  apply (first_open_faults (tty0tty_init 1) {| index := 0; driver_data := None |}).
  reflexivity.
Defined.

(** An open of a port whose record is already attached does what the
    specification says: the status lines are computed from the MCR of the
    open counterpart (from 0 if there is none), the port's own MCR is
    cleared, and the open is counted. *)
Lemma reopen_effect (k : kernel) (t : tty_struct) (p : Z) (r : tty0tty_serial)
    (kzalloc_ok : bool) :
  index t = p -> attached k p r -> int_range (open_count r + 1) ->
  exists k' m,
    tty0tty_open k t kzalloc_ok = (Done (Ret 0), handle p, k') /\
    calls k' = calls k /\
    port (tty0tty_table k') p =
      Some {| tty := Some p; open_count := open_count r + 1; msr := open_msr m;
              mcr := 0; icount := icount r |} /\
    (forall c, is_open k (counterpart_idx p) c -> m = mcr c) /\
    ((forall c, ~ is_open k (counterpart_idx p) c) -> m = 0) /\
    (forall i, i <> p -> slot (tty0tty_table k') i = slot (tty0tty_table k) i).
Proof.
  intros Hi Ha Hr. pose proof Ha as (Hp & Ht & _). subst p.
  assert (Hport : port (tty0tty_table k) (index t) = Some r) by (unfold port; by rewrite Hp).
  unfold tty0tty_open. rewrite Hp. simpl.
  destruct (get_counterpart_attached _ _ _ Ha) as [(c & Hc & ->) | (Hn & ->)]; simpl.
  - rewrite (proj1 Hc). simpl. exists (with_table k
      (assign (index t) (fun r0 => set_open_count (wrap_int (open_count r0 + 1)) r0)
         (assign (index t) (set_tty (Some (index t)))
            (assign (index t) (set_mcr 0)
               (assign (index t) (set_msr (open_msr (mcr c))) (tty0tty_table k)))))),
      (mcr c).
    split; [done |]. split; [done |].
    split; [simpl; lookup_assigned; rewrite Hport; simpl; by rewrite wrap_int_small |].
    split; [intros c' Hc'; by rewrite (is_open_inj _ _ _ _ Hc' Hc) |].
    split; [intros Hno; by destruct (Hno c) |].
    intros i Hne. simpl. by lookup_assigned.
  - exists (with_table k
      (assign (index t) (fun r0 => set_open_count (wrap_int (open_count r0 + 1)) r0)
         (assign (index t) (set_tty (Some (index t)))
            (assign (index t) (set_mcr 0)
               (assign (index t) (set_msr (open_msr 0)) (tty0tty_table k)))))), 0.
    split; [done |]. split; [done |].
    split; [simpl; lookup_assigned; rewrite Hport; simpl; by rewrite wrap_int_small |].
    split; [intros c Hc; by destruct (Hn c) |].
    split; [done |].
    intros i Hne. simpl. by lookup_assigned.
Qed.

Lemma reopen_effect_witness :
  exists k' m,
    tty0tty_open both_open (handle 1) true = (Done (Ret 0), handle 1, k') /\
    port (tty0tty_table k') 1 =
      Some {| tty := Some 1; open_count := 2; msr := open_msr m; mcr := 0;
              icount := icount_zero |} /\
    m = 0x03 /\ open_msr m = 0x70.
Proof.
  destruct (reopen_effect both_open (handle 1) 1
              {| tty := Some 1; open_count := 1; msr := 0x70; mcr := 0;
                 icount := icount_zero |} true)
    as (k' & m & Hrun & _ & Hport & Hm & _).
  - reflexivity.
  - repeat split. by eexists.
  - unfold int_range. simpl. lia.
  - assert (Hm3 : m = 0x03).
    { apply (Hm {| tty := Some 0; open_count := 1; msr := 0; mcr := 0x03;
                   icount := icount_zero |}). split; reflexivity. }
    exists k', m. split; [exact Hrun |]. split; [exact Hport |].
    split; [exact Hm3 |]. rewrite Hm3. reflexivity.
Defined.

(** A write on an open port whose counterpart is open hands the whole
    buffer to the counterpart's tty and returns [count]. *)
Lemma write_with_listener (k : kernel) (t : tty_struct) (p : Z) (r c : tty0tty_serial)
    (buffer : list byte) (count : Z) :
  driver_data t = Some p -> attached k p r -> open_count r > 0 ->
  is_open k (counterpart_idx p) c -> tty c = Some (counterpart_idx p) ->
  tty0tty_write k t buffer count =
    (Done (Ret count),
     {| tty0tty_table := tty0tty_table k;
        calls := calls k ++ [tty_insert_flip_string (counterpart_idx p) buffer count;
                             tty_flip_buffer_push (counterpart_idx p)] |}).
Proof.
  intros Hd Ha Ho Hc Ht. unfold tty0tty_write. rewrite Hd.
  pose proof Ha as (Hp & _). rewrite (deref_Some _ _ _ Hp). simpl.
  unfold truthy. destruct (Z.eqb_spec (open_count r) 0); [lia |]. simpl.
  rewrite (get_counterpart_open _ _ _ _ Ha Hc). simpl.
  rewrite (proj1 Hc). simpl. by rewrite Ht.
Qed.

Lemma write_with_listener_witness :
  tty0tty_write both_open (handle 0) [x61; x62; x63] 3 =
    (Done (Ret 3),
     {| tty0tty_table := tty0tty_table both_open;
        calls := [tty_insert_flip_string 1 [x61; x62; x63] 3; tty_flip_buffer_push 1] |}).
Proof.
  apply (write_with_listener both_open (handle 0) 0
           {| tty := Some 0; open_count := 1; msr := 0; mcr := 0x03; icount := icount_zero |}
           {| tty := Some 1; open_count := 1; msr := 0x70; mcr := 0; icount := icount_zero |}).
  - reflexivity.
  - repeat split. by eexists.
  - reflexivity.
  - split; reflexivity.
  - reflexivity.
Defined.

(** ** What the fault of the first open entails *)

Lemma get_counterpart_pristine tbl p :
  (forall i r, port tbl i = Some r -> r = kzalloc) -> get_counterpart tbl p = Fault.
Proof.
  intros Hf. unfold get_counterpart. destruct p as [p|]; [| done].
  rewrite deref_port. destruct (port tbl p) as [r|] eqn:Hp; [| done].
  by rewrite (Hf _ _ Hp).
Qed.

Lemma pristine_init pairs : pristine (tty0tty_init pairs).
Proof.
  split; [done |]. intros i r. unfold port, slot, tty0tty_init. simpl.
  destruct (i <? 0); [done |].
  destruct (replicate _ None !! Z.to_nat i) as [e|] eqn:He; [| done].
  apply lookup_replicate in He as [-> _]. done.
Qed.

Lemma pristine_open k t kzalloc_ok :
  pristine k -> pristine (snd (tty0tty_open k t kzalloc_ok)).
Proof.
  intros [Hc Hf]. unfold tty0tty_open.
  destruct (slot (tty0tty_table k) (index t)) as [[r|]|] eqn:Hs; simpl; [| | done].
  - by rewrite get_counterpart_pristine.
  - destruct kzalloc_ok; simpl; [| done].
    assert (Hf' : forall i r,
              port (poke (index t) (Some (set_open_count 0 kzalloc)) (tty0tty_table k)) i
              = Some r -> r = kzalloc).
    { intros i r. rewrite port_poke_fresh by done. case_decide; [by intros [= <-] | apply Hf]. }
    by rewrite get_counterpart_pristine.
Qed.

Lemma pristine_close k t : pristine k -> pristine (snd (tty0tty_close k t)).
Proof.
  intros [Hc Hf]. unfold tty0tty_close, do_close.
  destruct (driver_data t); [| done]. by rewrite get_counterpart_pristine.
Qed.

Lemma pristine_write k t buffer count :
  pristine k -> pristine (snd (tty0tty_write k t buffer count)).
Proof.
  intros [Hc Hf]. unfold tty0tty_write.
  destruct (driver_data t) as [p|]; [| done].
  rewrite deref_port. destruct (port (tty0tty_table k) p) as [r|] eqn:Hp; [| done].
  by rewrite (Hf _ _ Hp).
Qed.

Section Pristine.
Context `{Termios}.

Lemma pristine_tiocmset k t set clear :
  pristine k -> pristine (snd (tty0tty_tiocmset k t set clear)).
Proof.
  intros [Hc Hf]. unfold tty0tty_tiocmset.
  rewrite get_counterpart_pristine by done.
  by destruct (deref _ _).
Qed.

(** No open ever completes: whatever requests are served from the initial
    state, every record stays as it was allocated (no tty attached, open
    count 0, all lines clear) and no byte is ever delivered. *)
Lemma reachable_pristine k : reachable k -> pristine k.
Proof.
  induction 1 as [pairs | k q _ IH].
  - apply pristine_init.
  - destruct q; simpl;
      auto using pristine_open, pristine_close, pristine_write, pristine_tiocmset.
Qed.

End Pristine.

Lemma reachable_pristine_witness : pristine first_request.
Proof.
  apply (reachable_pristine (H := asm_generic)).
  apply reachable_serve, reachable_init.
Defined.

(** * Further properties of the driver *)

(** ** The table keeps its size *)

Lemma slot_is_Some tbl j : is_Some (slot tbl j) <-> 0 <= j < Z.of_nat (length tbl).
Proof.
  unfold slot. destruct (Z.ltb_spec j 0).
  - split; [by intros [? ?] | lia].
  - rewrite lookup_lt_is_Some. lia.
Qed.

Lemma length_assign p f tbl : length (assign p f tbl) = length tbl.
Proof. unfold assign. destruct (p <? 0); [done | apply length_alter]. Qed.

Lemma length_poke p v tbl : length (poke p v tbl) = length tbl.
Proof. unfold poke. destruct (p <? 0); [done | apply length_insert]. Qed.

Ltac same_length := simpl; rewrite ?length_assign, ?length_poke; try done.

Lemma length_open k t kzalloc_ok :
  length (tty0tty_table (snd (tty0tty_open k t kzalloc_ok))) = length (tty0tty_table k).
Proof.
  unfold tty0tty_open.
  destruct (slot (tty0tty_table k) (index t)) as [[r|]|]; simpl; [| | done].
  - destruct (get_counterpart _ _) as [[q|]|]; simpl; [| same_length..].
    destruct (slot _ q) as [[c|]|]; same_length.
  - destruct kzalloc_ok; simpl; [| done].
    destruct (get_counterpart _ _) as [[q|]|]; simpl; [| same_length..].
    destruct (slot _ q) as [[c|]|]; same_length.
Qed.

Lemma length_close k t :
  length (tty0tty_table (snd (tty0tty_close k t))) = length (tty0tty_table k).
Proof.
  unfold tty0tty_close, do_close. destruct (driver_data t) as [p|]; [| done].
  destruct (get_counterpart _ _) as [[q|]|]; simpl; [| | done].
  - destruct (slot _ p) as [[r|]|]; simpl; [| same_length..].
    destruct (negb _); same_length.
  - destruct (slot _ p) as [[r|]|]; simpl; [| same_length..].
    destruct (negb _); same_length.
Qed.

Lemma table_write k t buffer count :
  tty0tty_table (snd (tty0tty_write k t buffer count)) = tty0tty_table k.
Proof.
  unfold tty0tty_write. destruct (driver_data t); [| done].
  by destruct (_ ≫= _) as [[ttyx|]|].
Qed.

Lemma counterpart_idx_range pairs i :
  0 <= i < 2 * pairs -> 0 <= counterpart_idx i < 2 * pairs.
Proof.
  intros Hi. destruct (Z.even i) eqn:He.
  - rewrite (counterpart_idx_even i He).
    rewrite Zeven.Zeven_bool_iff in He. apply Zeven.Zeven_div2 in He. lia.
  - assert (Ho : Z.odd i = true) by by rewrite <- Z.negb_even, He.
    rewrite (counterpart_idx_odd i Ho).
    rewrite Zeven.Zodd_bool_iff in Ho. apply Zeven.Zodd_div2 in Ho. lia.
Qed.

Lemma counterpart_in_table tbl pairs i :
  Z.of_nat (length tbl) = 2 * pairs ->
  is_Some (slot tbl i) -> is_Some (slot tbl (counterpart_idx i)).
Proof.
  rewrite !slot_is_Some. intros ->. apply counterpart_idx_range.
Qed.

Section Size.
Context `{Termios}.

Lemma length_tiocmset k t set clear :
  length (tty0tty_table (snd (tty0tty_tiocmset k t set clear))) = length (tty0tty_table k).
Proof.
  unfold tty0tty_tiocmset.
  destruct (_ ≫= _) as [[[mcr0 [q|]] msr0]|], (driver_data t); same_length.
Qed.

Lemma length_serve k q :
  length (tty0tty_table (serve k q)) = length (tty0tty_table k).
Proof.
  destruct q; simpl;
    auto using length_open, length_close, length_tiocmset, f_equal, table_write.
Qed.

(** In every reachable state the table still has the [2 * pairs] slots it
    was allocated with, [pairs] clamped to 1..128, so the slot that
    [get_counterpart] reads for a port of the table lies inside the table. *)
Theorem counterpart_slot_in_bounds (k : kernel) :
  reachable k ->
  exists pairs,
    1 <= pairs <= 128 /\
    Z.of_nat (length (tty0tty_table k)) = 2 * pairs /\
    forall i, is_Some (slot (tty0tty_table k) i) ->
              is_Some (slot (tty0tty_table k) (counterpart_idx i)).
Proof.
  intros Hk.
  assert (Hlen : exists pairs,
            1 <= pairs <= 128 /\ Z.of_nat (length (tty0tty_table k)) = 2 * pairs).
  { induction Hk as [pairs | k q _ IH].
    - exists (clamp_val pairs 1 128). unfold tty0tty_init, clamp_val. simpl.
      rewrite length_replicate. lia.
    - destruct IH as (pairs & Hp & Hl). exists pairs. by rewrite length_serve. }
  destruct Hlen as (pairs & Hp & Hl). exists pairs.
  split; [done |]. split; [done |].
  intros i. by apply (counterpart_in_table _ pairs).
Qed.

End Size.

Lemma counterpart_slot_in_bounds_witness :
  exists pairs,
    1 <= pairs <= 128 /\
    Z.of_nat (length (tty0tty_table first_request)) = 2 * pairs /\
    forall i, is_Some (slot (tty0tty_table first_request) i) ->
              is_Some (slot (tty0tty_table first_request) (counterpart_idx i)).
Proof.
  apply (counterpart_slot_in_bounds (H := asm_generic)).
  apply reachable_serve, reachable_init.
Defined.

(** ** Pairs of open ports *)

(** Two attached, open ports of one pair resolve to each other, and
    neither resolves to itself. *)
Theorem counterparts_are_mutual (k : kernel) (p : Z) (r c : tty0tty_serial) :
  attached k p r -> attached k (counterpart_idx p) c ->
  open_count r > 0 -> open_count c > 0 ->
  get_counterpart (tty0tty_table k) (Some p) = Done (Some (counterpart_idx p)) /\
  get_counterpart (tty0tty_table k) (Some (counterpart_idx p)) = Done (Some p) /\
  counterpart_idx p <> p.
Proof.
  intros Hr Hc Hor Hoc.
  split; [| split; [| apply counterpart_idx_neq]].
  - eapply get_counterpart_open; [done |]. split; [apply Hc | done].
  - pose proof (get_counterpart_open k (counterpart_idx p) c r Hc) as Hq.
    rewrite counterpart_idx_involutive in Hq. apply Hq. split; [apply Hr | done].
Qed.

Lemma counterparts_are_mutual_witness :
  get_counterpart (tty0tty_table both_idle) (Some 0) = Done (Some 1) /\
  get_counterpart (tty0tty_table both_idle) (Some 1) = Done (Some 0) /\
  1 <> 0.
Proof.
  apply (counterparts_are_mutual both_idle 0 (idle_port 0) (idle_port 1)).
  - apply both_idle_attached. by left.
  - apply (both_idle_attached 1). by right.
  - reflexivity.
  - reflexivity.
Defined.

(** ** What a write does and what only a write does *)

(** A write never changes a record or a slot of the table.  Unless it
    faults, it either returns an error ([-ENODEV] only when the tty has no
    record, else [-EINVAL]) and does nothing, or returns exactly [count]
    after handing the whole buffer to one port's tty and pushing it: there
    is no partial write, whatever [count] is. *)
Theorem write_all_or_nothing (k : kernel) (t : tty_struct) (buffer : list byte) (count : Z) :
  tty0tty_table (snd (tty0tty_write k t buffer count)) = tty0tty_table k /\
  (tty0tty_write k t buffer count = (Fault, k) \/
   (tty0tty_write k t buffer count = (Done (Neg ENODEV), k) /\ driver_data t = None) \/
   (tty0tty_write k t buffer count = (Done (Neg EINVAL), k) /\ is_Some (driver_data t)) \/
   exists to,
     fst (tty0tty_write k t buffer count) = Done (Ret count) /\
     calls (snd (tty0tty_write k t buffer count)) =
       calls k ++ [tty_insert_flip_string to buffer count; tty_flip_buffer_push to]).
Proof.
  split; [apply table_write |].
  unfold tty0tty_write. destruct (driver_data t) as [p|]; [| right; left; done].
  destruct (_ ≫= _) as [[ttyx|]|].
  - right. right. right. by exists ttyx.
  - right. right. left. split; [done | by eexists].
  - by left.
Qed.

Lemma calls_open k t kzalloc_ok : calls (snd (tty0tty_open k t kzalloc_ok)) = calls k.
Proof.
  unfold tty0tty_open.
  destruct (slot (tty0tty_table k) (index t)) as [[r|]|]; simpl; [| | done].
  - destruct (get_counterpart _ _) as [[q|]|]; simpl; [| done..].
    by destruct (slot _ q) as [[c|]|].
  - destruct kzalloc_ok; simpl; [| done].
    destruct (get_counterpart _ _) as [[q|]|]; simpl; [| done..].
    by destruct (slot _ q) as [[c|]|].
Qed.

Lemma calls_close k t : calls (snd (tty0tty_close k t)) = calls k.
Proof.
  unfold tty0tty_close, do_close. destruct (driver_data t) as [p|]; [| done].
  destruct (get_counterpart _ _) as [[q|]|]; simpl; [| | done].
  - destruct (slot _ p) as [[r|]|]; simpl; [| done..]. by destruct (negb _).
  - destruct (slot _ p) as [[r|]|]; simpl; [| done..]. by destruct (negb _).
Qed.

Section Delivery.
Context `{Termios}.

(** Only a write hands anything to the tty layer: a request either leaves
    the trace of calls as it was, or it is a write and appends to it the
    delivery of its whole buffer to one port. *)
Theorem only_write_delivers (k : kernel) (q : request) :
  calls (serve k q) = calls k \/
  exists t buffer count to,
    q = Write t buffer count /\
    calls (serve k q) =
      calls k ++ [tty_insert_flip_string to buffer count; tty_flip_buffer_push to].
Proof.
  destruct q as [t ok | t | t buffer count | t | t | t | t set clear | t cmd arg ok ws];
    simpl; auto using calls_open, calls_close, calls_tiocmset.
  unfold tty0tty_write. destruct (driver_data t) as [p|]; [| by left].
  destruct (_ ≫= _) as [[ttyx|]|]; [| by left..].
  right. by exists t, buffer, count, ttyx.
Qed.

End Delivery.

(** ** The room a port advertises *)

(** An open port always advertises the nominal room of 255 bytes, whatever
    its counterpart does: also when no counterpart listens and every write
    is refused with [-EINVAL], and a write to a listening counterpart is
    accepted whole whatever its length, also beyond 255. *)
Theorem write_room_is_nominal (k : kernel) (t : tty_struct) (p : Z) (r : tty0tty_serial) :
  driver_data t = Some p -> attached k p r -> open_count r > 0 ->
  tty0tty_write_room k t = Done (Ret 255) /\
  (not_listening k (counterpart_idx p) ->
     forall buffer count, fst (tty0tty_write k t buffer count) = Done (Neg EINVAL)) /\
  (forall c, is_open k (counterpart_idx p) c -> is_Some (tty c) ->
     forall buffer count, fst (tty0tty_write k t buffer count) = Done (Ret count)).
Proof.
  intros Hd Ha Ho. pose proof Ha as (Hp & _).
  assert (Hnz : truthy (open_count r) = true).
  { unfold truthy. destruct (Z.eqb_spec (open_count r) 0); [lia | done]. }
  split; [| split].
  - unfold tty0tty_write_room. rewrite Hd, (deref_Some _ _ _ Hp). simpl. by rewrite Hnz.
  - intros Hn buffer count. unfold tty0tty_write.
    rewrite Hd, (deref_Some _ _ _ Hp). simpl. rewrite Hnz. simpl.
    by rewrite (get_counterpart_not_listening _ _ _ Ha Hn).
  - intros c Hc [x Hx] buffer count. unfold tty0tty_write.
    rewrite Hd, (deref_Some _ _ _ Hp). simpl. rewrite Hnz. simpl.
    rewrite (get_counterpart_open _ _ _ _ Ha Hc). simpl.
    rewrite (proj1 Hc). simpl. by rewrite Hx.
Qed.

Lemma write_room_is_nominal_witness :
  tty0tty_write_room lonely (handle 0) = Done (Ret 255) /\
  fst (tty0tty_write lonely (handle 0) [x61] 1) = Done (Neg EINVAL) /\
  tty0tty_write_room both_open (handle 0) = Done (Ret 255) /\
  fst (tty0tty_write both_open (handle 0) [] 1000) = Done (Ret 1000).
Proof.
  destruct (write_room_is_nominal lonely (handle 0) 0
              {| tty := Some 0; open_count := 1; msr := 0; mcr := 0; icount := icount_zero |})
    as (Hroom & Hrefused & _).
  - reflexivity.
  - repeat split. by exists None.
  - reflexivity.
  - destruct (write_room_is_nominal both_open (handle 0) 0
                {| tty := Some 0; open_count := 1; msr := 0; mcr := 0x03;
                   icount := icount_zero |})
      as (Hroom' & _ & Htaken).
    + reflexivity.
    + repeat split. by eexists.
    + reflexivity.
    + split; [exact Hroom |]. split; [apply Hrefused; by left |].
      split; [exact Hroom' |].
      apply (Htaken {| tty := Some 1; open_count := 1; msr := 0x70; mcr := 0;
                       icount := icount_zero |}).
      * split; reflexivity.
      * by eexists.
Defined.

(** ** Reading the modem lines back *)

Lemma if_same_Z (b : bool) (z : Z) : (if b then z else z) = z.
Proof. by destruct b. Qed.

Lemma land_pick (c g f : Z) :
  Z.land (if truthy c then g else 0) f = if truthy c then Z.land g f else 0.
Proof. by destruct (truthy c). Qed.

Lemma truthy_pick (c f : Z) : f <> 0 -> truthy (if truthy c then f else 0) = truthy c.
Proof.
  intros Hf. destruct (truthy c); [| done].
  unfold truthy. by destruct (Z.eqb_spec f 0).
Qed.

Section Read_back.
Context `{Termios}.

(** Masking the result of [tty0tty_tiocmget] with the flag of a line tells
    whether the line is asserted in the shadow register. *)
Lemma tiocmget_result_decode (mcr0 msr0 : Z) :
  distinct_flags ->
  truthy (Z.land (tiocmget_result mcr0 msr0) TIOCM_DTR) = asserted mcr0 MCR_DTR /\
  truthy (Z.land (tiocmget_result mcr0 msr0) TIOCM_RTS) = asserted mcr0 MCR_RTS /\
  truthy (Z.land (tiocmget_result mcr0 msr0) TIOCM_LOOP) = asserted mcr0 MCR_LOOP /\
  truthy (Z.land (tiocmget_result mcr0 msr0) TIOCM_CTS) = asserted msr0 MSR_CTS /\
  truthy (Z.land (tiocmget_result mcr0 msr0) TIOCM_CAR) = asserted msr0 MSR_CD /\
  truthy (Z.land (tiocmget_result mcr0 msr0) TIOCM_RI) = asserted msr0 MSR_RI /\
  truthy (Z.land (tiocmget_result mcr0 msr0) TIOCM_DSR) = asserted msr0 MSR_DSR.
Proof.
  intros [Hnz Hdj]. unfold tiocm_flags in *.
  repeat match goal with
         | Hf : Forall _ (_ :: _) |- _ => inversion_clear Hf
         | Hf : ForallOrdPairs _ (_ :: _) |- _ => inversion_clear Hf
         end.
  unfold tiocmget_result, asserted. cbv beta zeta.
  rewrite !Z.land_lor_distr_l, !land_pick.
  repeat match goal with
         | Hz : Z.land ?a ?b = 0 |- context [Z.land ?a ?b] => rewrite Hz
         | Hz : Z.land ?a ?b = 0 |- context [Z.land ?b ?a] => rewrite (Z.land_comm b a), Hz
         end.
  rewrite !if_same_Z, !Z.land_diag, ?Z.lor_0_l, ?Z.lor_0_r.
  by rewrite !truthy_pick.
Qed.

(** With the kernel's flags, the value that [tty0tty_tiocmget] returns for
    a port with a record reports each of the seven lines exactly as the
    port's shadow registers hold it. *)
Theorem tiocmget_reports_lines (k : kernel) (t : tty_struct) (p : Z) (r : tty0tty_serial) :
  distinct_flags -> driver_data t = Some p -> port (tty0tty_table k) p = Some r ->
  exists v,
    tty0tty_tiocmget k t = Done (Ret v) /\
    truthy (Z.land v TIOCM_DTR) = asserted (mcr r) MCR_DTR /\
    truthy (Z.land v TIOCM_RTS) = asserted (mcr r) MCR_RTS /\
    truthy (Z.land v TIOCM_LOOP) = asserted (mcr r) MCR_LOOP /\
    truthy (Z.land v TIOCM_CTS) = asserted (msr r) MSR_CTS /\
    truthy (Z.land v TIOCM_CAR) = asserted (msr r) MSR_CD /\
    truthy (Z.land v TIOCM_RI) = asserted (msr r) MSR_RI /\
    truthy (Z.land v TIOCM_DSR) = asserted (msr r) MSR_DSR.
Proof.
  intros Hf Hd Hp. exists (tiocmget_result (mcr r) (msr r)). split.
  - unfold tty0tty_tiocmget. rewrite Hd, deref_port, Hp. done.
  - by apply tiocmget_result_decode.
Qed.

End Read_back.

Lemma asm_generic_distinct : distinct_flags (H := asm_generic).
Proof.
  split.
  - repeat constructor; discriminate.
  - repeat constructor.
Defined.

Lemma tiocmget_reports_lines_witness :
  exists v,
    tty0tty_tiocmget (H := asm_generic) both_open (handle 1) = Done (Ret v) /\
    truthy (Z.land v 0x020) = true /\ truthy (Z.land v 0x004) = false.
Proof.
  destruct (tiocmget_reports_lines (H := asm_generic) both_open (handle 1) 1
              {| tty := Some 1; open_count := 1; msr := 0x70; mcr := 0;
                 icount := icount_zero |} asm_generic_distinct eq_refl eq_refl)
    as (v & Hrun & _ & Hrts & _ & Hcts & _).
  exists v. split; [exact Hrun |]. split; [exact Hcts | exact Hrts].
Defined.

(** ** Lines seen from the other side *)

Lemma port_slot tbl i r : slot tbl i = Some (Some r) -> port tbl i = Some r.
Proof. unfold port. by intros ->. Qed.

Lemma port_drop_counterpart_lines tbl p i :
  port (drop_counterpart_lines tbl p) i =
    if decide (i = counterpart_idx p)
    then (fun c => if open_count c >? 0 then set_msr 0 c else c) <$> port tbl i
    else port tbl i.
Proof.
  unfold drop_counterpart_lines.
  destruct (port tbl (counterpart_idx p)) as [c|] eqn:Hc.
  - destruct (open_count c >? 0) eqn:Ho.
    + rewrite port_assign. case_decide; [| done]. subst. rewrite Hc. simpl. by rewrite Ho.
    + case_decide; [| done]. subst. rewrite Hc. simpl. by rewrite Ho.
  - case_decide; [| done]. subst. by rewrite Hc.
Qed.

(** The state [do_close] leaves through an attached port. *)
Lemma do_close_attached k p r :
  attached k p r ->
  do_close k (Some p) =
    (Done (),
     with_table k
       (if open_count r =? 0 then drop_counterpart_lines (tty0tty_table k) p
        else assign p (set_open_count (wrap_int (open_count r - 1)))
               (drop_counterpart_lines (tty0tty_table k) p))).
Proof.
  intros (Hp & Ht & [e He]). pose proof (counterpart_idx_neq p) as Hq.
  unfold do_close, get_counterpart, drop_counterpart_lines, port.
  rewrite (deref_Some _ _ _ Hp). simpl. rewrite Ht, He.
  assert (Hnz : negb (truthy (open_count r)) = (open_count r =? 0)).
  { unfold truthy. by rewrite negb_involutive. }
  destruct e as [c|]; [destruct (open_count c >? 0) |];
    simpl; lookup_assigned; rewrite Hp; simpl; rewrite Hnz;
    by destruct (open_count r =? 0).
Qed.

Lemma close_at_counterpart k p r c :
  attached k p r -> is_open k (counterpart_idx p) c ->
  port (tty0tty_table (close_at p k)) (counterpart_idx p) = Some (set_msr 0 c).
Proof.
  intros Ha [Hc Ho]. pose proof (counterpart_idx_neq p) as Hq.
  unfold close_at, tty0tty_close. simpl. rewrite (do_close_attached _ _ _ Ha). simpl.
  assert (Hdrop : port (drop_counterpart_lines (tty0tty_table k) p) (counterpart_idx p)
                  = Some (set_msr 0 c)).
  { rewrite port_drop_counterpart_lines, decide_True by done.
    rewrite (port_slot _ _ _ Hc). simpl.
    destruct (Z.gtb_spec (open_count c) 0); [done | lia]. }
  destruct (open_count r =? 0); [done |]. by lookup_assigned.
Qed.

Section Other_side.
Context `{Termios}.

(** After [tty0tty_tiocmset] through an attached port, what
    [tty0tty_tiocmget] returns on the open counterpart shows CTS following
    the caller's RTS, and DSR and carrier following the caller's DTR (off if
    the clear mask names the line, else on if the set mask does, else as
    before), while RI and the counterpart's own DTR, RTS and LOOP read as
    before. *)
Theorem set_lines_show_on_counterpart (k : kernel) (p : Z) (r c : tty0tty_serial)
    (set clear : Z) :
  distinct_flags -> attached k p r -> is_open k (counterpart_idx p) c ->
  exists k' v,
    tty0tty_tiocmset k (handle p) set clear = (Done (Ret 0), k') /\
    tty0tty_tiocmget k' (handle (counterpart_idx p)) = Done (Ret v) /\
    truthy (Z.land v TIOCM_CTS) =
      (if truthy (Z.land clear TIOCM_RTS) then false
       else if truthy (Z.land set TIOCM_RTS) then true else asserted (msr c) MSR_CTS) /\
    truthy (Z.land v TIOCM_DSR) =
      (if truthy (Z.land clear TIOCM_DTR) then false
       else if truthy (Z.land set TIOCM_DTR) then true else asserted (msr c) MSR_DSR) /\
    truthy (Z.land v TIOCM_CAR) =
      (if truthy (Z.land clear TIOCM_DTR) then false
       else if truthy (Z.land set TIOCM_DTR) then true else asserted (msr c) MSR_CD) /\
    truthy (Z.land v TIOCM_RI) = asserted (msr c) MSR_RI /\
    truthy (Z.land v TIOCM_DTR) = asserted (mcr c) MCR_DTR /\
    truthy (Z.land v TIOCM_RTS) = asserted (mcr c) MCR_RTS /\
    truthy (Z.land v TIOCM_LOOP) = asserted (mcr c) MCR_LOOP.
Proof.
  intros Hf Ha Hc.
  destruct (tiocmset_effect k (handle p) p r set clear eq_refl Ha)
    as (k' & Hrun & _ & _ & Hcp & _).
  specialize (Hcp c Hc).
  exists k', (tiocmget_result (mcr c) (tiocmset_msr set clear (msr c))).
  split; [done |]. split.
  { unfold tty0tty_tiocmget, handle. cbn [driver_data]. by rewrite deref_port, Hcp. }
  destruct (tiocmget_result_decode (mcr c) (tiocmset_msr set clear (msr c)) Hf)
    as (Hdtr & Hrts & Hloop & Hcts & Hcar & Hri & Hdsr).
  rewrite Hcts, Hdsr, Hcar, Hri, Hdtr, Hrts, Hloop.
  rewrite asserted_MSR_CTS, asserted_MSR_DSR, asserted_MSR_CD.
  rewrite !tiocmset_msr_testbit by lia. cbn [Z.eqb Pos.eqb orb].
  rewrite <- asserted_MSR_CTS, <- asserted_MSR_DSR, <- asserted_MSR_CD.
  repeat split.
  unfold asserted, truthy. f_equal. f_equal.
  apply Z.bits_inj'. intros j Hj.
  rewrite !Z.land_spec, tiocmset_msr_testbit by done.
  change MSR_RI with (2 ^ 7). rewrite Z.pow2_bits_eqb by done.
  destruct (Z.eqb_spec 7 j); subst; [done |]. by rewrite !andb_false_r.
Qed.

(** After a close through an attached port, whatever that port's open
    count was and is, [tty0tty_tiocmget] on the open counterpart reports
    CTS, DSR, carrier and RI all clear, and the counterpart's own DTR, RTS
    and LOOP as before. *)
Theorem close_disconnects_counterpart (k : kernel) (p : Z) (r c : tty0tty_serial) :
  distinct_flags -> attached k p r -> is_open k (counterpart_idx p) c ->
  exists v,
    tty0tty_tiocmget (close_at p k) (handle (counterpart_idx p)) = Done (Ret v) /\
    truthy (Z.land v TIOCM_CTS) = false /\
    truthy (Z.land v TIOCM_DSR) = false /\
    truthy (Z.land v TIOCM_CAR) = false /\
    truthy (Z.land v TIOCM_RI) = false /\
    truthy (Z.land v TIOCM_DTR) = asserted (mcr c) MCR_DTR /\
    truthy (Z.land v TIOCM_RTS) = asserted (mcr c) MCR_RTS /\
    truthy (Z.land v TIOCM_LOOP) = asserted (mcr c) MCR_LOOP.
Proof.
  intros Hf Ha Hc.
  exists (tiocmget_result (mcr c) 0). split.
  { unfold tty0tty_tiocmget, handle. cbn [driver_data].
    by rewrite deref_port, (close_at_counterpart _ _ _ _ Ha Hc). }
  destruct (tiocmget_result_decode (mcr c) 0 Hf)
    as (Hdtr & Hrts & Hloop & Hcts & Hcar & Hri & Hdsr).
  by rewrite Hcts, Hdsr, Hcar, Hri, Hdtr, Hrts, Hloop.
Qed.

End Other_side.

Lemma close_disconnects_counterpart_witness :
  exists v,
    tty0tty_tiocmget (H := asm_generic) (close_at 0 both_open) (handle 1) = Done (Ret v) /\
    truthy (Z.land v 0x020) = false /\ truthy (Z.land v 0x100) = false /\
    truthy (Z.land v 0x040) = false.
Proof.
  destruct (close_disconnects_counterpart (H := asm_generic) both_open 0
              {| tty := Some 0; open_count := 1; msr := 0; mcr := 0x03; icount := icount_zero |}
              {| tty := Some 1; open_count := 1; msr := 0x70; mcr := 0; icount := icount_zero |}
              asm_generic_distinct)
    as (v & Hrun & Hcts & Hdsr & Hcar & _).
  - repeat split. by eexists.
  - split; reflexivity.
  - exists v. split; [exact Hrun |]. split; [exact Hcts |]. split; [exact Hdsr | exact Hcar].
Defined.

Lemma set_lines_show_on_counterpart_witness :
  exists k' v,
    tty0tty_tiocmset (H := asm_generic) both_idle (handle 0) 0x006 0 = (Done (Ret 0), k') /\
    tty0tty_tiocmget (H := asm_generic) k' (handle 1) = Done (Ret v) /\
    truthy (Z.land v 0x020) = true /\ truthy (Z.land v 0x100) = true /\
    truthy (Z.land v 0x040) = true.
Proof.
  destruct (set_lines_show_on_counterpart (H := asm_generic) both_idle 0
              (idle_port 0) (idle_port 1) 0x006 0 asm_generic_distinct
              (both_idle_attached 0 (or_introl eq_refl))
              (both_idle_open 1 (or_intror eq_refl)))
    as (k' & v & Hset & Hget & Hcts & Hdsr & Hcar & _).
  exists k', v. split; [exact Hset |]. split; [exact Hget |].
  split; [exact Hcts |]. split; [exact Hdsr | exact Hcar].
Defined.

(** ** Counting the holders of a port *)

Lemma slot_drop_counterpart_lines tbl p i :
  slot (drop_counterpart_lines tbl p) i =
    if decide (i = counterpart_idx p)
    then fmap (M := option) (fun c => if open_count c >? 0 then set_msr 0 c else c)
           <$> slot tbl i
    else slot tbl i.
Proof.
  unfold drop_counterpart_lines, port.
  destruct (slot tbl (counterpart_idx p)) as [[c|]|] eqn:Hc.
  - destruct (open_count c >? 0) eqn:Ho.
    + rewrite slot_assign. case_decide; [| done]. subst. rewrite Hc. simpl. by rewrite Ho.
    + case_decide; [| done]. subst. rewrite Hc. simpl. by rewrite Ho.
  - case_decide; [| done]. subst. by rewrite Hc.
  - case_decide; [| done]. subst. by rewrite Hc.
Qed.

(** The state an open leaves through a port whose record is attached. *)
Lemma open_attached k p r kzalloc_ok :
  attached k p r ->
  tty0tty_open k (handle p) kzalloc_ok =
    (Done (Ret 0), handle p,
     with_table k
       (assign p (fun r0 => set_open_count (wrap_int (open_count r0 + 1)) r0)
          (assign p (set_tty (Some p))
             (assign p (set_mcr 0)
                (assign p (set_msr (open_msr (counterpart_mcr (tty0tty_table k) p)))
                   (tty0tty_table k)))))).
Proof.
  intros (Hp & Ht & [e He]).
  unfold tty0tty_open, get_counterpart, counterpart_mcr, port. simpl.
  rewrite Hp. simpl. rewrite Hp. simpl. rewrite Ht, He.
  destruct e as [c|]; [| done].
  destruct (open_count c >? 0); [| done]. simpl. by rewrite He.
Qed.

Lemma open_at_attached k p r :
  attached k p r ->
  attached (open_at p k) p
    {| tty := Some p; open_count := wrap_int (open_count r + 1);
       msr := open_msr (counterpart_mcr (tty0tty_table k) p); mcr := 0;
       icount := icount r |}.
Proof.
  intros Ha. pose proof Ha as (Hp & Ht & [e He]).
  pose proof (counterpart_idx_neq p) as Hq.
  unfold open_at. rewrite (open_attached _ _ _ _ Ha).
  unfold attached. cbn [snd with_table tty0tty_table tty].
  split; [| split; [done |]].
  - lookup_assigned. by rewrite Hp.
  - lookup_assigned. by rewrite He.
Qed.

Lemma close_at_attached k p r :
  attached k p r ->
  attached (close_at p k) p
    (if open_count r =? 0 then r else set_open_count (wrap_int (open_count r - 1)) r).
Proof.
  intros Ha. pose proof Ha as (Hp & Ht & [e He]).
  pose proof (counterpart_idx_neq p) as Hq.
  unfold close_at, tty0tty_close. simpl. rewrite (do_close_attached _ _ _ Ha).
  unfold attached. cbn [snd with_table tty0tty_table].
  destruct (open_count r =? 0).
  - split; [| split; [done |]].
    + rewrite slot_drop_counterpart_lines, decide_False by done. done.
    + rewrite slot_drop_counterpart_lines, decide_True by done. by rewrite He.
  - split; [| split; [done |]].
    + lookup_assigned. rewrite slot_drop_counterpart_lines, decide_False by done.
      by rewrite Hp.
    + lookup_assigned. rewrite slot_drop_counterpart_lines, decide_True by done.
      by rewrite He.
Qed.

Lemma opens_attached p n : forall k r,
  attached k p r -> 0 <= open_count r -> open_count r + Z.of_nat n < 2 ^ 31 ->
  exists r1, attached (Nat.iter n (open_at p) k) p r1 /\
             open_count r1 = open_count r + Z.of_nat n.
Proof.
  induction n as [| n IH]; intros k r Ha H0 Hmax.
  - exists r. split; [done | simpl; lia].
  - destruct (IH k r Ha H0) as (r1 & Ha1 & Ho1); [lia |].
    eexists. split; [apply (open_at_attached _ _ _ Ha1) |].
    simpl. rewrite wrap_int_small; [lia | unfold int_range; lia].
Qed.

Lemma closes_attached p m : forall k r,
  attached k p r -> Z.of_nat m <= open_count r < 2 ^ 31 ->
  exists r', attached (Nat.iter m (close_at p) k) p r' /\
             open_count r' = open_count r - Z.of_nat m.
Proof.
  induction m as [| m IH]; intros k r Ha Hm.
  - exists r. split; [done | simpl; lia].
  - destruct (IH k r Ha) as (r' & Ha' & Ho'); [lia |].
    eexists. split; [apply (close_at_attached _ _ _ Ha') |].
    destruct (Z.eqb_spec (open_count r') 0); [lia |]. simpl.
    rewrite wrap_int_small; [lia | unfold int_range; lia].
Qed.

(** Opens and closes of one port balance.  After [n] further opens of an
    attached port its open count is [n] higher; after [n] closes it is back
    where it was; and after fewer than [n] closes the port is still open. *)
Theorem open_close_balance (k : kernel) (p : Z) (r : tty0tty_serial) (n : nat) :
  attached k p r -> 0 <= open_count r -> open_count r + Z.of_nat n < 2 ^ 31 ->
  (exists r1, attached (Nat.iter n (open_at p) k) p r1 /\
              open_count r1 = open_count r + Z.of_nat n) /\
  (exists r2, attached (Nat.iter n (close_at p) (Nat.iter n (open_at p) k)) p r2 /\
              open_count r2 = open_count r) /\
  (forall m, (m < n)%nat ->
     exists r3, attached (Nat.iter m (close_at p) (Nat.iter n (open_at p) k)) p r3 /\
                open_count r3 > 0).
Proof.
  intros Ha H0 Hmax.
  destruct (opens_attached p n k r Ha H0 Hmax) as (r1 & Ha1 & Ho1).
  split; [by exists r1 |]. split.
  - destruct (closes_attached p n _ r1 Ha1) as (r2 & Ha2 & Ho2); [lia |].
    exists r2. split; [done | lia].
  - intros m Hm.
    destruct (closes_attached p m _ r1 Ha1) as (r3 & Ha3 & Ho3); [lia |].
    exists r3. split; [done | lia].
Qed.

Lemma open_close_balance_witness :
  (exists r1, attached (Nat.iter 2 (open_at 0) half_closed) 0 r1 /\ open_count r1 = 2) /\
  (exists r2, attached (Nat.iter 2 (close_at 0) (Nat.iter 2 (open_at 0) half_closed)) 0 r2 /\
              open_count r2 = 0) /\
  (exists r3, attached (Nat.iter 1 (close_at 0) (Nat.iter 2 (open_at 0) half_closed)) 0 r3 /\
              open_count r3 > 0).
Proof.
  destruct (open_close_balance half_closed 0
              {| tty := Some 0; open_count := 0; msr := 0; mcr := 0; icount := icount_zero |}
              2)
    as (Hup & Hdown & Hstill).
  - repeat split. by eexists.
  - simpl. lia.
  - simpl. lia.
  - split; [exact Hup |]. split; [exact Hdown |]. apply Hstill. lia.
Defined.

(** ** Properties of every record that requests preserve *)

Lemma all_ports_assign (Q P : tty0tty_serial -> Prop) tbl p f :
  all_ports Q tbl -> (forall r, Q r -> P r) ->
  (forall r, port tbl p = Some r -> Q r -> P (f r)) ->
  all_ports P (assign p f tbl).
Proof.
  intros Hall Hqp Hf i r. rewrite port_assign. case_decide.
  - subst. destruct (port tbl p) as [x|] eqn:Hx; [| done].
    intros [= <-]. apply Hf; [done |]. by apply (Hall p).
  - intros Hi. apply Hqp. by apply (Hall i).
Qed.

Lemma all_ports_poke_fresh (P : tty0tty_serial -> Prop) tbl p r0 :
  slot tbl p = Some None -> P r0 -> all_ports P tbl ->
  all_ports P (poke p (Some r0) tbl).
Proof.
  intros Hp H0 Hall i r. rewrite port_poke_fresh by done. case_decide.
  - by intros [= <-].
  - apply Hall.
Qed.

Lemma all_ports_drop (P : tty0tty_serial -> Prop) tbl p :
  all_ports P tbl -> (forall r, P r -> P (set_msr 0 r)) ->
  all_ports P (drop_counterpart_lines tbl p).
Proof.
  intros Hall Hf i r. rewrite port_drop_counterpart_lines. case_decide; [| apply Hall].
  destruct (port tbl i) as [c|] eqn:Hc; [| done]. intros [= <-].
  destruct (open_count c >? 0); [apply Hf |]; by apply (Hall i).
Qed.

Lemma open_msr_bits m j : Z.testbit (open_msr m) j = true -> j = 4 \/ j = 5 \/ j = 6.
Proof.
  unfold open_msr.
  destruct (truthy (Z.land m MCR_RTS)), (truthy (Z.land m MCR_DTR));
    register_bits;
    destruct (Z.eqb_spec 4 j), (Z.eqb_spec 5 j), (Z.eqb_spec 6 j); simpl; auto; done.
Qed.

Section Records.
Context `{Termios}.

Lemma tiocmset_msr_bits set clear m j :
  (forall i, Z.testbit m i = true -> i = 4 \/ i = 5 \/ i = 6) ->
  Z.testbit (tiocmset_msr set clear m) j = true -> j = 4 \/ j = 5 \/ j = 6.
Proof.
  intros Hm. destruct (Z.ltb_spec j 0); [by rewrite Z.testbit_neg_r |].
  rewrite tiocmset_msr_testbit by done.
  destruct (Z.eqb_spec j 4), (Z.eqb_spec j 5), (Z.eqb_spec j 6); auto.
Qed.

Lemma tiocmset_mcr_bits set clear m j :
  (forall i, Z.testbit m i = true -> i = 0 \/ i = 1) ->
  Z.testbit (tiocmset_mcr set clear m) j = true -> j = 0 \/ j = 1.
Proof.
  intros Hm. destruct (Z.ltb_spec j 0); [by rewrite Z.testbit_neg_r |].
  rewrite tiocmset_mcr_testbit by done.
  destruct (Z.eqb_spec j 1), (Z.eqb_spec j 0); auto.
Qed.

(** What a request can do to the records, in terms of a property [Q] of
    all records before and a property [P] of all records after: [P] has to
    hold of a fresh record, and of a record of [Q] after each change a
    request can make to it (its status lines set by the null-modem rule or
    cleared, its control lines cleared or changed in RTS and DTR, a tty
    attached, its open count one higher or, when it is not 0, one lower). *)
Lemma all_ports_serve (Q P : tty0tty_serial -> Prop) (k : kernel) (q : request) :
  (forall r, Q r -> P r) ->
  P kzalloc ->
  (forall r m i, Q r ->
     P {| tty := Some i; open_count := wrap_int (open_count r + 1); msr := open_msr m;
          mcr := 0; icount := icount r |}) ->
  (forall r, Q r -> P (set_msr 0 r)) ->
  (forall r, Q r -> open_count r <> 0 ->
     P (set_open_count (wrap_int (open_count r - 1)) r) /\
     P (set_open_count (wrap_int (open_count r - 1)) (set_msr 0 r))) ->
  (forall r set clear, Q r -> P (set_mcr (tiocmset_mcr set clear (mcr r)) r)) ->
  (forall r set clear, Q r -> P (set_msr (tiocmset_msr set clear (msr r)) r)) ->
  (forall r set clear, Q r ->
     P (set_msr (tiocmset_msr set clear (msr r)) (set_mcr (tiocmset_mcr set clear (mcr r)) r))) ->
  all_ports Q (tty0tty_table k) -> all_ports P (tty0tty_table (serve k q)).
Proof.
  intros Hqp Hfresh Hopen Hdrop Hdec Hmcr Hmsr Hboth Hall.
  assert (Hsame : all_ports P (tty0tty_table k)).
  { intros i r Hr. apply Hqp. by apply (Hall i). }
  destruct q as [t ok | t | t buffer count | t | t | t | t set clear | t cmd arg ok ws];
    simpl; try done.
  - (* open *)
    assert (Hdone : forall tbl m,
              all_ports Q tbl ->
              all_ports P
                (assign (index t) (fun r => set_open_count (wrap_int (open_count r + 1)) r)
                   (assign (index t) (set_tty (Some (index t)))
                      (assign (index t) (set_mcr 0)
                         (assign (index t) (set_msr (open_msr m)) tbl))))).
    { intros tbl m Htbl i r. rewrite !port_assign. case_decide; [| intros Hi].
      - destruct (port tbl (index t)) as [x|] eqn:Hx; [| subst; by rewrite Hx]. subst. rewrite Hx. intros [= <-].
        apply (Hopen x m (index t)). by apply (Htbl (index t)).
      - apply Hqp. by apply (Htbl i). }
    unfold tty0tty_open.
    destruct (slot (tty0tty_table k) (index t)) as [[r|]|] eqn:Hs; simpl; [| | done].
    + destruct (get_counterpart _ _) as [[c|]|]; simpl; [| by apply Hdone | done].
      destruct (slot _ c) as [[x|]|]; simpl; (by apply Hdone) || done.
    + destruct ok; simpl; [| done].
      assert (HP : all_ports P
                (poke (index t) (Some (set_open_count 0 kzalloc)) (tty0tty_table k)))
        by by apply all_ports_poke_fresh.
      assert (Hg : get_counterpart
                (poke (index t) (Some (set_open_count 0 kzalloc)) (tty0tty_table k))
                (Some (index t)) = Fault).
      { unfold get_counterpart, deref. rewrite slot_poke, decide_True, Hs by done. done. }
      by rewrite Hg.
  - (* close *)
    unfold tty0tty_close. destruct (driver_data t) as [p|]; [| done].
    unfold do_close.
    destruct (get_counterpart _ _) as [[c|]|]; simpl; [| | done].
    + destruct (slot (assign c (set_msr 0) (tty0tty_table k)) p) as [[r|]|] eqn:Hr; simpl.
      * destruct (negb _) eqn:Hz; simpl.
        { eapply (all_ports_assign Q P); eauto. }
        { assert (Hnz : open_count r <> 0).
          { unfold truthy in Hz. rewrite negb_involutive in Hz.
            by destruct (Z.eqb_spec (open_count r) 0). }
          rewrite slot_assign in Hr.
          intros i x. rewrite !port_assign.
          destruct (decide (i = p)) as [-> | Hip], (decide (p = c)) as [-> | Hpc];
            try destruct (decide (i = c)) as [-> | Hic].
          - destruct (slot (tty0tty_table k) c) as [[y|]|] eqn:Hy; try done.
            injection Hr as <-. rewrite (port_slot _ _ _ Hy). intros [= <-].
            apply (Hdec y); [| done]. apply (Hall c). by apply port_slot.
          - rewrite (port_slot _ _ _ Hr). intros [= <-].
            apply (Hdec r); [| done]. apply (Hall p). by apply port_slot.
          - done.
          - intros Hx. apply Hsame in Hx. done.
          - destruct (port (tty0tty_table k) c) as [y|] eqn:Hy; [| done].
            intros [= <-]. apply Hdrop. by apply (Hall c).
          - apply Hsame. }
      * eapply (all_ports_assign Q P); eauto.
      * eapply (all_ports_assign Q P); eauto.
    + destruct (slot (tty0tty_table k) p) as [[r|]|] eqn:Hr; simpl; [| done..].
      destruct (negb _) eqn:Hz; simpl; [done |].
      assert (Hnz : open_count r <> 0).
      { unfold truthy in Hz. rewrite negb_involutive in Hz.
        by destruct (Z.eqb_spec (open_count r) 0). }
      eapply (all_ports_assign Q P); eauto.
      intros x Hx _. rewrite (port_slot _ _ _ Hr) in Hx. injection Hx as <-.
      apply (Hdec r); [| done]. apply (Hall p). by apply port_slot.
  - (* write *)
    by rewrite table_write.
  - (* tiocmset *)
    unfold tty0tty_tiocmset. destruct (driver_data t) as [p|]; simpl; [| done].
    destruct (slot (tty0tty_table k) p) as [[r|]|] eqn:Hr; simpl; [| done..].
    destruct (get_counterpart _ _) as [[c|]|]; simpl; [| | done].
    + destruct (slot (tty0tty_table k) c) as [[y|]|] eqn:Hy; simpl; [| done..].
      intros i x. rewrite !port_assign.
      destruct (decide (i = c)) as [-> | Hic], (decide (c = p)) as [-> | Hcp];
        try destruct (decide (i = p)) as [-> | Hip]; try done.
      * assert (y = r) as -> by congruence.
        rewrite (port_slot _ _ _ Hr). intros [= <-].
        apply Hboth. apply (Hall p). by apply port_slot.
      * rewrite (port_slot _ _ _ Hy). intros [= <-].
        apply Hmsr. apply (Hall c). by apply port_slot.
      * apply Hsame.
      * rewrite (port_slot _ _ _ Hr). intros [= <-].
        apply Hmcr. apply (Hall p). by apply port_slot.
      * apply Hsame.
    + eapply (all_ports_assign Q P); eauto.
      intros x Hx Hq. rewrite (port_slot _ _ _ Hr) in Hx. injection Hx as <-. by apply Hmcr.
Qed.

(** Every request keeps the shadow registers tidy: if no record holds a
    bit other than CTS, CD and DSR in its MSR and DTR and RTS in its MCR,
    the same is true after the request.  In particular RI and LOOP can never
    become asserted. *)
Theorem registers_stay_tidy (k : kernel) (q : request) : tidy k -> tidy (serve k q).
Proof.
  assert (Hzero : forall j, Z.testbit 0 j = true -> False)
    by (intros j; by rewrite Z.bits_0).
  intros Ht. apply (all_ports_serve tidy_port tidy_port k q); try done.
  - split; simpl; intros j Hj; by destruct (Hzero j).
  - intros r m i _. split; simpl; intros j Hj; [by apply (open_msr_bits m) |].
    by destruct (Hzero j).
  - intros r [_ Hc]. split; simpl; [| done]. intros j Hj. by destruct (Hzero j).
  - intros r [Hs Hc] _. split; split; simpl; try done; intros j Hj; by destruct (Hzero j).
  - intros r set clear [Hs Hc]. split; simpl; [done |]. intros j. by apply tiocmset_mcr_bits.
  - intros r set clear [Hs Hc]. split; simpl; [| done]. intros j. by apply tiocmset_msr_bits.
  - intros r set clear [Hs Hc]. split; simpl; intros j.
    + by apply tiocmset_msr_bits.
    + by apply tiocmset_mcr_bits.
Qed.

(** No request makes an open count negative, and a request raises no open
    count by more than 1: if every count lies between 0 and a bound below
    [INT_MAX], after the request every count lies between 0 and the bound
    plus 1. *)
Theorem open_counts_stay_in_range (k : kernel) (q : request) (bound : Z) :
  0 <= bound < 2 ^ 31 - 1 ->
  all_ports (fun r => 0 <= open_count r <= bound) (tty0tty_table k) ->
  all_ports (fun r => 0 <= open_count r <= bound + 1) (tty0tty_table (serve k q)).
Proof.
  intros Hb Hall.
  apply (all_ports_serve (fun r => 0 <= open_count r <= bound)
           (fun r => 0 <= open_count r <= bound + 1) k q); simpl; try done; try lia.
  - intros r _ _ Hr. rewrite wrap_int_small; [lia | unfold int_range; lia].
  - intros r Hr Hnz. rewrite wrap_int_small; [lia | unfold int_range; lia].
Qed.

End Records.

Lemma registers_stay_tidy_witness :
  tidy (serve (H := asm_generic) both_open (Tiocmset (handle 0) 0xFFFF 0)).
Proof.
  apply (registers_stay_tidy (H := asm_generic) both_open).
  intros i r Hr. unfold port, slot in Hr. simpl in Hr.
  destruct (i <? 0); [done |].
  destruct (Z.to_nat i) as [| [| n]]; simpl in Hr; [| | done].
  - injection Hr as <-. split; simpl; intros j Hj.
    + by rewrite Z.bits_0 in Hj.
    + change 3 with (Z.lor (2 ^ 0) (2 ^ 1)) in Hj.
      destruct (Z.ltb_spec j 0); [by rewrite Z.testbit_neg_r in Hj |].
      rewrite Z.lor_spec, !Z.pow2_bits_eqb in Hj by lia.
      destruct (Z.eqb_spec 0 j), (Z.eqb_spec 1 j); auto; done.
  - injection Hr as <-. split; simpl; intros j Hj.
    + change 112 with (Z.lor (2 ^ 4) (Z.lor (2 ^ 5) (2 ^ 6))) in Hj.
      destruct (Z.ltb_spec j 0); [by rewrite Z.testbit_neg_r in Hj |].
      rewrite !Z.lor_spec, !Z.pow2_bits_eqb in Hj by lia.
      destruct (Z.eqb_spec 4 j), (Z.eqb_spec 5 j), (Z.eqb_spec 6 j); auto; done.
    + by rewrite Z.bits_0 in Hj.
Defined.

Lemma open_counts_stay_in_range_witness :
  all_ports (fun r => 0 <= open_count r <= 1 + 1)
    (tty0tty_table (serve (H := asm_generic) both_open (Open (handle 0) true))).
Proof.
  apply (open_counts_stay_in_range (H := asm_generic) both_open (Open (handle 0) true) 1).
  - lia.
  - intros i r Hr. unfold port, slot in Hr. simpl in Hr.
    destruct (i <? 0); [done |].
    destruct (Z.to_nat i) as [| [| n]]; simpl in Hr; [| | done];
      injection Hr as <-; simpl; lia.
Defined.

(** ** Module exit *)














(** ** Waiting for nothing *)

Section Empty_mask.
Context `{Termios}.

(** A TIOCMIWAIT whose mask names none of RNG, DSR, CD and CTS never
    returns 0, whatever happens to the counters: it can only end with a
    signal, with [-EIO] at a wake-up that finds no counter changed, or with a
    fault. *)
Theorem wait_with_empty_mask (arg : Z) (wakeups : list wakeup) :
  empty_mask arg ->
  forall tty0tty cprev,
    tiocmiwait_loop tty0tty arg cprev wakeups = None \/
    tiocmiwait_loop tty0tty arg cprev wakeups = Some (Done (Neg ERESTARTSYS)) \/
    tiocmiwait_loop tty0tty arg cprev wakeups = Some (Done (Neg EIO)) \/
    tiocmiwait_loop tty0tty arg cprev wakeups = Some Fault.
Proof.
  intros (Hrng & Hdsr & Hcd & Hcts).
  induction wakeups as [| w rest IH]; intros tty0tty cprev; [by left |].
  cbn [tiocmiwait_loop].
  destruct (signal_pending w); [by right; left |].
  destruct (deref _ tty0tty) as [r|]; [| by right; right; right].
  destruct (_ && _); [by right; right; left |].
  rewrite Hrng, Hdsr, Hcd, Hcts. simpl. apply IH.
Qed.

End Empty_mask.

Lemma wait_with_empty_mask_witness :
  tiocmiwait_loop (H := asm_generic) (Some 1) 0 icount_zero
    [{| signal_pending := false; now := cts_counted |};
     {| signal_pending := false; now := cts_counted |}]
  = Some (Done (Neg EIO)).
Proof.
  destruct (wait_with_empty_mask (H := asm_generic) 0
              [{| signal_pending := false; now := cts_counted |};
               {| signal_pending := false; now := cts_counted |}])
    with (tty0tty := Some 1) (cprev := icount_zero) as [Hw | [Hw | [Hw | Hw]]].
  - repeat split.
  - discriminate Hw.
  - discriminate Hw.
  - exact Hw.
  - discriminate Hw.
Defined.

(** ** How an open can end *)

(** From any state and for any tty, an open ends in one of three ways.  It
    faults, leaving the tty without record.  Or it returns [-ENOMEM], only
    when the port has no record yet and the allocation fails, and then
    nothing has changed.  Or it returns 0: then the port had a record [r]
    with a tty of some index [idx] attached, the tty's [driver_data] is now
    that record, and the record is [r] with the tty attached, the open count
    one higher, the control lines clear and the status lines computed by the
    null-modem rule from the control lines of the open counterpart of [idx]
    (from 0 if that counterpart has no record or is not open); no other slot
    has changed and nothing was delivered. *)
Theorem open_outcomes (k : kernel) (t : tty_struct) (kzalloc_ok : bool) :
  match tty0tty_open k t kzalloc_ok with
  | (Fault, t', _) => driver_data t' = None
  | (Done (Neg e), t', k') =>
      e = ENOMEM /\ kzalloc_ok = false /\
      slot (tty0tty_table k) (index t) = Some None /\ k' = k /\ driver_data t' = None
  | (Done (Ret v), t', k') =>
      v = 0 /\ driver_data t' = Some (index t) /\ calls k' = calls k /\
      (forall i, i <> index t -> slot (tty0tty_table k') i = slot (tty0tty_table k) i) /\
      exists r idx,
        port (tty0tty_table k) (index t) = Some r /\ tty r = Some idx /\
        port (tty0tty_table k') (index t) =
          Some {| tty := Some (index t);
                  open_count := wrap_int (open_count r + 1);
                  msr := open_msr (counterpart_mcr (tty0tty_table k) idx);
                  mcr := 0;
                  icount := icount r |}
  end.
Proof.
  assert (Hdone : forall r idx m,
            slot (tty0tty_table k) (index t) = Some (Some r) -> tty r = Some idx ->
            m = counterpart_mcr (tty0tty_table k) idx ->
            (forall i, i <> index t ->
               slot (assign (index t)
                       (fun r => set_open_count (wrap_int (open_count r + 1)) r)
                       (assign (index t) (set_tty (Some (index t)))
                          (assign (index t) (set_mcr 0)
                             (assign (index t) (set_msr (open_msr m)) (tty0tty_table k))))) i
               = slot (tty0tty_table k) i) /\
            exists r0 idx0,
              port (tty0tty_table k) (index t) = Some r0 /\ tty r0 = Some idx0 /\
              port (assign (index t)
                      (fun r => set_open_count (wrap_int (open_count r + 1)) r)
                      (assign (index t) (set_tty (Some (index t)))
                         (assign (index t) (set_mcr 0)
                            (assign (index t) (set_msr (open_msr m)) (tty0tty_table k)))))
                (index t)
              = Some {| tty := Some (index t);
                        open_count := wrap_int (open_count r0 + 1);
                        msr := open_msr (counterpart_mcr (tty0tty_table k) idx0);
                        mcr := 0;
                        icount := icount r0 |}).
  { intros r idx m Hr Ht ->. split.
    - intros i Hi. by lookup_assigned.
    - exists r, idx. split; [by apply port_slot |]. split; [done |].
      lookup_assigned. by rewrite (port_slot _ _ _ Hr). }
  unfold tty0tty_open.
  destruct (slot (tty0tty_table k) (index t)) as [[r|]|] eqn:Hs; simpl; [| | done].
  - unfold get_counterpart, deref. rewrite Hs. simpl.
    destruct (tty r) as [idx|] eqn:Ht; [| done].
    destruct (slot (tty0tty_table k) (counterpart_idx idx)) as [[c|]|] eqn:Hc; [| | done].
    + destruct (open_count c >? 0) eqn:Ho; simpl.
      * rewrite Hc. simpl. split; [done |]. split; [done |]. split; [done |].
        apply (Hdone r idx); [done | done |].
        unfold counterpart_mcr. by rewrite (port_slot _ _ _ Hc), Ho.
      * split; [done |]. split; [done |]. split; [done |].
        apply (Hdone r idx); [done | done |].
        unfold counterpart_mcr. by rewrite (port_slot _ _ _ Hc), Ho.
    + simpl. split; [done |]. split; [done |]. split; [done |].
      apply (Hdone r idx); [done | done |].
      unfold counterpart_mcr, port. by rewrite Hc.
  - destruct kzalloc_ok; simpl; [| done].
    assert (Hg : get_counterpart
              (poke (index t) (Some (set_open_count 0 kzalloc)) (tty0tty_table k))
              (Some (index t)) = Fault).
    { unfold get_counterpart, deref. rewrite slot_poke, decide_True, Hs by done. done. }
    by rewrite Hg.
Qed.
